(** * Shape contracts and reference semantics of the Similarity operations

    A shallow embedding of [src/ops/similarity_op.cpp]: the two shape
    functions [SimilarityShape] and [SimilarityParametersGradShape], the
    four operation registrations, the part of TensorFlow's shape-inference
    context they call, and a reference model of the forward kernel that the
    registration's documentation describes. *)

From Stdlib Require Import ZArith List String Bool Lia Reals Floats.
From stdpp Require Import base option list strings gmap pretty.

Local Open Scope string_scope.
Local Open Scope Z_scope.

(** ** The shape-inference framework seen by the shape functions *)

Module tensorflow.

(** Error codes of [tensorflow::Status] that can reach a shape function. *)
Inductive Code : Set :=
| INVALID_ARGUMENT
| NOT_FOUND
| OUT_OF_RANGE
| UNIMPLEMENTED
| INTERNAL.

(** The value of a call that reports through a [Status] and an out
    parameter: the out parameter on [Status::OK()], the error otherwise. *)
Inductive StatusOr (A : Type) : Type :=
| Value (a : A)
| NotOK (code : Code) (msg : string).

Arguments Value {A} a.
Arguments NotOK {A} code msg.

Definition InvalidArgument {A : Type} (msg : string) : StatusOr A :=
  NotOK INVALID_ARGUMENT msg.

Definition is_ok {A : Type} (r : StatusOr A) : bool :=
  match r with Value _ => true | NotOK _ _ => false end.

(** A dimension is an [int64]; [kUnknownDim] marks a size not yet known. *)
Definition DimensionHandle : Set := Z.
Definition kUnknownDim : DimensionHandle := -1.
Definition kUnknownRank : Z := -1.
Definition kint32max : Z := 2147483647.
Definition kint32min : Z := -2147483648.

Definition ValueKnown (d : DimensionHandle) : bool := negb (d =? kUnknownDim).

(** A shape is either of unknown rank or a vector of dimensions. *)
Inductive ShapeHandle : Set :=
| UnknownShape
| MakeShape (dims : list DimensionHandle).

Definition Rank (s : ShapeHandle) : Z :=
  match s with
  | UnknownShape => kUnknownRank
  | MakeShape dims => Z.of_nat (length dims)
  end.

Definition UnknownShapeOfRank (rank : Z) : ShapeHandle :=
  MakeShape (replicate (Z.to_nat rank) kUnknownDim).

(** [InferenceContext::WithRank]: a shape of the wanted rank passes, a
    shape of unknown rank is refined to that many unknown dimensions, any
    other rank is an InvalidArgument error. *)
Definition WithRank (shape : ShapeHandle) (rank : Z) : StatusOr ShapeHandle :=
  if rank >? kint32max then InvalidArgument "Rank cannot exceed kint32max"
  else
    let existing := Rank shape in
    if existing =? rank then Value shape
    else if existing =? kUnknownRank then Value (UnknownShapeOfRank rank)
    else InvalidArgument
           ("Shape must be rank " +:+ pretty rank +:+ " but is rank " +:+ pretty existing).

(** [InferenceContext::Dim]: every dimension of a shape of unknown rank is
    unknown; otherwise the vector is indexed, which has no defined result
    past its end ([None]). *)
Definition Dim (s : ShapeHandle) (idx : nat) : option DimensionHandle :=
  match s with
  | UnknownShape => Some kUnknownDim
  | MakeShape dims => dims !! idx
  end.

(** [InferenceContext::Merge] on dimensions. *)
Definition Merge (d0 d1 : DimensionHandle) : StatusOr DimensionHandle :=
  if negb (ValueKnown d1) then Value d0
  else if negb (ValueKnown d0) then Value d1
  else if d0 =? d1 then Value d0
  else InvalidArgument
         ("Dimensions must be equal, but are " +:+ pretty d0 +:+ " and " +:+ pretty d1).

(** Attribute values of a node. *)
Inductive AttrValue : Set :=
| AttrDType (t : string)
| AttrString (s : string)
| AttrListInt (l : list Z)
| AttrBool (b : bool)
| AttrFloat (f : float).

(** The context a shape function runs in: the shapes of the node's inputs,
    its attributes, and one slot per output ([None] until [set_output]). *)
Record InferenceContext : Type := mkContext {
  inputs : list ShapeHandle;
  attrs : gmap string AttrValue;
  outputs : list (option ShapeHandle)
}.

(** What running a shape function on a context comes to: it returns OK, it
    returns an error [Status], or it has indexed a vector out of range,
    which C++ leaves undefined. The context after the run is kept in the
    first two cases. *)
Inductive Outcome (A : Type) : Type :=
| Returns (a : A) (c : InferenceContext)
| Fails (code : Code) (msg : string) (c : InferenceContext)
| Undefined.

Arguments Returns {A} a c.
Arguments Fails {A} code msg c.
Arguments Undefined {A}.

Definition M (A : Type) : Type := InferenceContext -> Outcome A.

Definition ret {A : Type} (a : A) : M A := fun c => Returns a c.

Definition bind {A B : Type} (m : M A) (k : A -> M B) : M B :=
  fun c =>
    match m c with
    | Returns a c' => k a c'
    | Fails code msg c' => Fails code msg c'
    | Undefined => Undefined
    end.

(** [TF_RETURN_IF_ERROR(e)]: leave with the error of [e], or go on. *)
Definition TF_RETURN_IF_ERROR {A : Type} (r : StatusOr A) : M A :=
  fun c =>
    match r with
    | Value a => Returns a c
    | NotOK code msg => Fails code msg c
    end.

(** [return errors::InvalidArgument(...)]. *)
Definition return_InvalidArgument {A : Type} (msg : string) : M A :=
  fun c => Fails INVALID_ARGUMENT msg c.

(** A result that exists only for an index inside the vector. *)
Definition defined {A : Type} (o : option A) : M A :=
  fun c =>
    match o with
    | Some a => Returns a c
    | None => Undefined
    end.

(** [c->input(idx)]. *)
Definition input (idx : nat) : M ShapeHandle :=
  fun c => defined (inputs c !! idx) c.

(** [c->set_output(idx, shape)]. *)
Definition set_output (idx : nat) (shape : ShapeHandle) : M unit :=
  fun c =>
    if decide (idx < length (outputs c))%nat
    then Returns tt (mkContext (inputs c) (attrs c) (<[idx := Some shape]> (outputs c)))
    else Undefined.

Definition fits_int32 (v : Z) : bool := (kint32min <=? v) && (v <=? kint32max).

(** [GetAttr] into a vector of [int32]: the attribute has to exist, to be
    a list of integers, and every value has to fit an [int32]. *)
Definition GetAttr_int32s (name : string) (c : InferenceContext) : StatusOr (list Z) :=
  match attrs c !! name with
  | None => NotOK NOT_FOUND ("No attr named '" +:+ name +:+ "' in NodeDef")
  | Some (AttrListInt l) =>
      match List.find (fun v => negb (fits_int32 v)) l with
      | None => Value l
      | Some v =>
          InvalidArgument
            ("Attr " +:+ name +:+ " has value " +:+ pretty v +:+ " out of range for an int32")
      end
  | Some _ =>
      InvalidArgument ("AttrValue had value with unexpected type for attr '" +:+ name +:+ "'")
  end.

Definition GetAttr (name : string) : M (list Z) :=
  fun c => TF_RETURN_IF_ERROR (GetAttr_int32s name c) c.

(** [shape_inference::UnchangedShape]. *)
Definition UnchangedShape : M unit :=
  bind (input 0) (fun s => set_output 0 s).

End tensorflow.

Export tensorflow.

Notation "'let*' x ':=' e 'in' k" := (bind e (fun x => k))
  (at level 10, x name, e at level 100, k at level 200).
Notation "'run' e 'in' k" := (bind e (fun _ => k))
  (at level 10, e at level 100, k at level 200).

(** ** Operation registrations: the data of [REGISTER_OP] *)

Inductive AttrType : Set :=
| type_in (allowed : list string)
| string_in (allowed : list string)
| list_int
| bool_attr
| float_attr.

(** A default is kept as it is written in the registration; a [float]
    default is the decimal literal, as a fraction. *)
Inductive AttrDefault : Set :=
| DefaultString (s : string)
| DefaultListInt (l : list Z)
| DefaultBool (b : bool)
| DefaultFloat (num : Z) (den : positive).

Record AttrDef : Set := mkAttr {
  attr_name : string;
  attr_type : AttrType;
  attr_default : option AttrDefault
}.

Record ArgDef : Set := mkArg {
  arg_name : string;
  arg_type : string
}.

Record OpDef : Type := mkOp {
  op_name : string;
  input_arg : list ArgDef;
  output_arg : list ArgDef;
  attr : list AttrDef;
  shape_fn : M unit;
  has_doc : bool
}.

(** The context the framework builds for a node of an operation: the
    shapes of its inputs, its attributes, and an empty slot per output. *)
Definition context_of (op : OpDef) (ins : list ShapeHandle)
    (node_attrs : gmap string AttrValue) : InferenceContext :=
  mkContext ins node_attrs (replicate (length (output_arg op)) None).

(** ** The shape functions *)

Section ShapeFunctions.

(** [simnets_tf::GetSimnetsOutputSizeFromDims] lives in [utils/im2col.hpp];
    the shape function is read with it as a parameter: from the input
    extent, the filter extent, the stride, the padding and the rounding
    flag it gives the output extent or an error, and it sets no output of
    the context. *)
Variable GetSimnetsOutputSizeFromDims :
  DimensionHandle -> DimensionHandle -> Z -> Z -> bool -> StatusOr DimensionHandle.

Definition SimilarityShape : M unit :=
  let* in0 := input 0 in
  let* input_shape := TF_RETURN_IF_ERROR (WithRank in0 4) in
  let* in1 := input 1 in
  let* template_shape := TF_RETURN_IF_ERROR (WithRank in1 4) in
  let* strides := GetAttr "strides" in
  let* blocks := GetAttr "blocks" in
  let* padding := GetAttr "padding" in
  if negb (length strides =? 2)%nat then
    return_InvalidArgument
      ("Similarity requires the stride attribute to contain 2 values, but got: "
         +:+ pretty (length strides))
  else
    let* stride_rows := defined (strides !! 0%nat) in
    let* stride_cols := defined (strides !! 1%nat) in
    let* batch_size_dim := defined (Dim input_shape 0) in
    let* in_rows_dim := defined (Dim input_shape 2) in
    let* in_cols_dim := defined (Dim input_shape 3) in
    let* filter_rows_dim := defined (Dim template_shape 2) in
    let* filter_cols_dim := defined (Dim template_shape 3) in
    let* output_depth_dim := defined (Dim template_shape 0) in
    let* in_depth_dim := defined (Dim input_shape 1) in
    let* template_depth_dim := defined (Dim template_shape 1) in
    let* unused := TF_RETURN_IF_ERROR (Merge in_depth_dim template_depth_dim) in
    let* padding_0 := defined (padding !! 0%nat) in
    let* output_rows :=
      TF_RETURN_IF_ERROR
        (GetSimnetsOutputSizeFromDims in_rows_dim filter_rows_dim stride_rows padding_0 true) in
    let* padding_1 := defined (padding !! 1%nat) in
    let* output_cols :=
      TF_RETURN_IF_ERROR
        (GetSimnetsOutputSizeFromDims in_cols_dim filter_cols_dim stride_cols padding_1 true) in
    let output_shape :=
      MakeShape [batch_size_dim; output_depth_dim; output_rows; output_cols] in
    run set_output 0 output_shape in
    ret tt.

Definition SimilarityParametersGradShape : M unit :=
  let* templates := input 1 in
  run set_output 0 templates in
  let* weights := input 2 in
  run set_output 1 weights in
  ret tt.

Definition Similarity : OpDef :=
  mkOp "Similarity"
    [mkArg "input" "T"; mkArg "templates" "T"; mkArg "weights" "T"]
    [mkArg "output" "T"]
    [ mkAttr "T" (type_in ["float32"; "float64"]) None;
      mkAttr "similarity_function" (string_in ["L1"; "L2"]) (Some (DefaultString "L2"));
      mkAttr "blocks" list_int (Some (DefaultListInt [3; 3]));
      mkAttr "strides" list_int (Some (DefaultListInt [2; 2]));
      mkAttr "padding" list_int (Some (DefaultListInt [0; 0]));
      mkAttr "normalization_term" bool_attr (Some (DefaultBool false));
      mkAttr "normalization_term_fudge" float_attr (Some (DefaultFloat 1 1000));
      mkAttr "ignore_nan_input" bool_attr (Some (DefaultBool false));
      mkAttr "out_of_bounds_value" float_attr (Some (DefaultFloat 0 1)) ]
    SimilarityShape true.

Definition SimilarityRef : OpDef :=
  mkOp "SimilarityRef"
    [mkArg "input" "T"; mkArg "templates" "T"; mkArg "weights" "T"]
    [mkArg "output" "T"]
    [ mkAttr "T" (type_in ["float32"; "float64"]) None;
      mkAttr "similarity_function" (string_in ["L1"; "L2"]) (Some (DefaultString "L2"));
      mkAttr "blocks" list_int (Some (DefaultListInt [3; 3]));
      mkAttr "strides" list_int (Some (DefaultListInt [2; 2]));
      mkAttr "padding" list_int (Some (DefaultListInt [0; 0]));
      mkAttr "normalization_term" bool_attr (Some (DefaultBool false));
      mkAttr "normalization_term_fudge" float_attr (Some (DefaultFloat 1 1000));
      mkAttr "ignore_nan_input" bool_attr (Some (DefaultBool false));
      mkAttr "out_of_bounds_value" float_attr (Some (DefaultFloat 0 1)) ]
    SimilarityShape false.

Definition SimilarityInputGrad : OpDef :=
  mkOp "SimilarityInputGrad"
    [mkArg "input" "T"; mkArg "templates" "T"; mkArg "weights" "T"; mkArg "input_grad" "T"]
    [mkArg "output" "T"]
    [ mkAttr "T" (type_in ["float32"; "float64"]) None;
      mkAttr "similarity_function" (string_in ["L1"; "L2"]) (Some (DefaultString "L2"));
      mkAttr "blocks" list_int (Some (DefaultListInt [3; 3]));
      mkAttr "strides" list_int (Some (DefaultListInt [2; 2]));
      mkAttr "padding" list_int (Some (DefaultListInt [0; 0]));
      mkAttr "normalization_term" bool_attr (Some (DefaultBool false));
      mkAttr "normalization_term_fudge" float_attr (Some (DefaultFloat 1 1000));
      mkAttr "ignore_nan_input" bool_attr (Some (DefaultBool false));
      mkAttr "out_of_bounds_value" float_attr (Some (DefaultFloat 0 1)) ]
    UnchangedShape false.

Definition SimilarityParametersGrad : OpDef :=
  mkOp "SimilarityParametersGrad"
    [mkArg "input" "T"; mkArg "templates" "T"; mkArg "weights" "T"; mkArg "output_grad" "T"]
    [mkArg "templates_grad" "T"; mkArg "weights_grad" "T"]
    [ mkAttr "T" (type_in ["float32"; "float64"]) None;
      mkAttr "similarity_function" (string_in ["L1"; "L2"]) (Some (DefaultString "L2"));
      mkAttr "blocks" list_int (Some (DefaultListInt [3; 3]));
      mkAttr "strides" list_int (Some (DefaultListInt [2; 2]));
      mkAttr "padding" list_int (Some (DefaultListInt [0; 0]));
      mkAttr "normalization_term" bool_attr (Some (DefaultBool false));
      mkAttr "normalization_term_fudge" float_attr (Some (DefaultFloat 1 1000));
      mkAttr "ignore_nan_input" bool_attr (Some (DefaultBool false));
      mkAttr "out_of_bounds_value" float_attr (Some (DefaultFloat 0 1)) ]
    SimilarityParametersGradShape false.

End ShapeFunctions.

(** Modelled from the spec: the output-size helper
    [simnets_tf::GetSimnetsOutputSizeFromDims] of [utils/im2col.hpp], which
    is not among the sources. The spec gives the output extent as a
    function of input extent, block extent, stride and padding, sized as a
    convolution's: the padded input minus the block, divided by the stride
    (rounded down when the flag is set, up otherwise), plus one. An unknown
    extent gives an unknown extent; a stride below 1 or a block larger than
    the padded input is an error. *)
Definition SimnetsOutputSize (input_size filter_size : DimensionHandle)
    (stride padding : Z) (round_down : bool) : StatusOr DimensionHandle :=
  if stride <=? 0 then
    InvalidArgument ("Stride must be > 0, but got " +:+ pretty stride)
  else if negb (ValueKnown input_size) || negb (ValueKnown filter_size) then
    Value kUnknownDim
  else
    let span := input_size + 2 * padding - filter_size in
    if span <? 0 then
      InvalidArgument ("Negative dimension size caused by subtracting "
                         +:+ pretty filter_size +:+ " from " +:+ pretty (input_size + 2 * padding))
    else if round_down then Value (span / stride + 1)
    else Value ((span + stride - 1) / stride + 1).

(** The attributes of a node as the registration's defaults give them,
    with the three integer lists set. *)
Definition node_attrs (blocks strides padding : list Z) : gmap string AttrValue :=
  <["T" := AttrDType "float32"]>
  (<["similarity_function" := AttrString "L2"]>
  (<["blocks" := AttrListInt blocks]>
  (<["strides" := AttrListInt strides]>
  (<["padding" := AttrListInt padding]>
  (<["normalization_term" := AttrBool false]>
  (<["ignore_nan_input" := AttrBool false]> ∅)))))).

(** ** The forward kernel

    The numeric kernels are not among the sources. The forward pass is
    modelled from the spec's algorithm (4.1, 4.2) and the documentation in
    the registration of Similarity, over the element type [T] the operation
    is registered for ([float32] or [float64]). *)

(** The arithmetic the kernel needs of its element type: the four
    operations, the absolute value, the NaN test, the conversion of a count,
    and the constants -0.5 and log(2*pi). *)
Class Scalar (T : Type) : Type := {
  zero : T;
  add : T -> T -> T;
  sub : T -> T -> T;
  mul : T -> T -> T;
  opp : T -> T;
  absolute : T -> T;
  isnan : T -> bool;
  of_count : nat -> T;
  minus_half : T;
  log_2pi : T
}.

(** [T = float64]: IEEE 754 binary64. *)
#[export] Instance float64 : Scalar float := {
  zero := 0%float;
  add := PrimFloat.add;
  sub := PrimFloat.sub;
  mul := PrimFloat.mul;
  opp := PrimFloat.opp;
  absolute := PrimFloat.abs;
  isnan := PrimFloat.is_nan;
  of_count := fun n => PrimFloat.of_uint63 (Uint63.of_Z (Z.of_nat n));
  minus_half := (-0.5)%float;
  log_2pi := 0x1.d67f1c864beb4p+0%float
}.

(** Exact real arithmetic with one extra value, NaN ([None]), that every
    operation propagates. *)
Definition nan_lift1 (f : R -> R) (a : option R) : option R :=
  match a with Some x => Some (f x) | None => None end.

Definition nan_lift2 (f : R -> R -> R) (a b : option R) : option R :=
  match a, b with Some x, Some y => Some (f x y) | _, _ => None end.

#[export] Instance exact_real : Scalar (option R) := {
  zero := Some 0%R;
  add := nan_lift2 Rplus;
  sub := nan_lift2 Rminus;
  mul := nan_lift2 Rmult;
  opp := nan_lift1 Ropp;
  absolute := nan_lift1 Rabs;
  isnan := fun a => match a with Some _ => false | None => true end;
  of_count := fun n => Some (INR n);
  minus_half := Some (- (1 / 2))%R;
  log_2pi := Some (ln (2 * PI))%R
}.

Inductive SimilarityFunction : Set := L1 | L2.

Record Geometry : Set := mkGeometry {
  block_h : nat;
  block_w : nat;
  stride_h : Z;
  stride_w : Z;
  pad_h : Z;
  pad_w : Z
}.

Section ForwardKernel.

Context {T : Type} `{Scalar T}.

Record Flags : Type := mkFlags {
  normalization_term : bool;
  normalization_term_fudge : T;
  ignore_nan_input : bool;
  out_of_bounds_value : T
}.

(** Modelled from the spec: Tensor4D, a dense row-major array with axes
    (N, C, H, W), the strides implied by the shape. *)
Record Tensor4D : Type := mkTensor {
  dim_n : nat;
  dim_c : nat;
  dim_h : nat;
  dim_w : nat;
  data : list T
}.

Definition offset4 (t_c t_h t_w : nat) (n c h w : nat) : nat :=
  (((n * t_c + c) * t_h + h) * t_w + w)%nat.

Definition get (t : Tensor4D) (n c h w : nat) : T :=
  nth (offset4 (dim_c t) (dim_h t) (dim_w t) n c h w) (data t) zero.

(** Modelled from the spec: the elementwise distance of the similarity
    mode, L1 is -|a-b| and L2 is -(a-b)^2. *)
Definition phi (mode : SimilarityFunction) (a b : T) : T :=
  match mode with
  | L1 => opp (absolute (sub a b))
  | L2 => opp (mul (sub a b) (sub a b))
  end.

(** Modelled from the spec: the patch extractor (4.1). Output cell (i, j)
    and offset (di, dj) map to input row [stride_h * i + di - pad_h] and
    column [stride_w * j + dj - pad_w]; the pair is in bounds inside the
    input extent, and out of bounds the value read is out_of_bounds_value. *)
Definition input_row (g : Geometry) (i di : nat) : Z :=
  stride_h g * Z.of_nat i + Z.of_nat di - pad_h g.

Definition input_col (g : Geometry) (j dj : nat) : Z :=
  stride_w g * Z.of_nat j + Z.of_nat dj - pad_w g.

Definition in_bounds (input : Tensor4D) (row col : Z) : bool :=
  (0 <=? row) && (row <? Z.of_nat (dim_h input))
  && (0 <=? col) && (col <? Z.of_nat (dim_w input)).

Definition patch_value (input : Tensor4D) (g : Geometry) (flags : Flags)
    (b i j : nat) (o : nat * nat * nat) : T :=
  let '(dc, di, dj) := o in
  let row := input_row g i di in
  let col := input_col g j dj in
  if in_bounds input row col
  then get input b dc (Z.to_nat row) (Z.to_nat col)
  else out_of_bounds_value flags.

(** [for (k = 0; k < n; ++k) body(k)] over a state. *)
Definition for_range {S : Type} (n : nat) (body : nat -> S -> S) (s : S) : S :=
  fold_left (fun s k => body k s) (seq 0 n) s.

(** Modelled from the spec: the weighted distance of one element of the
    block (4.2, step 1): the distance of the patch value to the template,
    times the weight. *)
Definition term (input templates weights : Tensor4D) (g : Geometry)
    (mode : SimilarityFunction) (flags : Flags) (b c i j : nat)
    (o : nat * nat * nat) : T :=
  let '(dc, di, dj) := o in
  mul (get weights c dc di dj)
      (phi mode (patch_value input g flags b i j o) (get templates c dc di dj)).

(** Modelled from the spec: one step of the loop on the running sum and the
    active count K (4.2, steps 1 and 2): a NaN patch value is left out and K
    decremented when NaN is ignored, the term is added otherwise. *)
Definition accumulate (input templates weights : Tensor4D) (g : Geometry)
    (mode : SimilarityFunction) (flags : Flags) (b c i j : nat)
    (o : nat * nat * nat) (acc : T * nat) : T * nat :=
  if ignore_nan_input flags && isnan (patch_value input g flags b i j o)
  then (fst acc, Nat.pred (snd acc))
  else (add (fst acc) (term input templates weights g mode flags b c i j o), snd acc).

(** Modelled from the spec: the running sum and the count after the loops
    over dc in [0, Cin), di in [0, Bh) and dj in [0, Bw), K starting at the
    size of the block. *)
Definition accumulated (input templates weights : Tensor4D) (g : Geometry)
    (mode : SimilarityFunction) (flags : Flags) (b c i j : nat) : T * nat :=
  for_range (dim_c input) (fun dc =>
    for_range (block_h g) (fun di =>
      for_range (block_w g) (fun dj =>
        accumulate input templates weights g mode flags b c i j (dc, di, dj))))
    (zero, (dim_c input * block_h g * block_w g)%nat).

(** Modelled from the spec: the normalization term -0.5 * K * log(2*pi)
    for an active count K (4.2, step 3). *)
Definition normalization (K : nat) : T :=
  mul (mul minus_half (of_count K)) log_2pi.

(** Modelled from the spec: output element (b, c, i, j), the accumulated
    sum, with the normalization term added when the flag is set (4.2, steps
    3 and 4). *)
Definition forward_element (input templates weights : Tensor4D) (g : Geometry)
    (mode : SimilarityFunction) (flags : Flags) (b c i j : nat) : T :=
  let '(sum, K) := accumulated input templates weights g mode flags b c i j in
  if normalization_term flags then add sum (normalization K) else sum.

(** Modelled from the spec: the output tensor [N, Cout, Oh, Ow], of the
    spatial extents shape inference gave. *)
Definition forward (input templates weights : Tensor4D) (g : Geometry)
    (mode : SimilarityFunction) (flags : Flags) (out_h out_w : nat) : Tensor4D :=
  mkTensor (dim_n input) (dim_n templates) out_h out_w
    (flat_map (fun b =>
       flat_map (fun c =>
         flat_map (fun i =>
           map (fun j => forward_element input templates weights g mode flags b c i j)
               (seq 0 out_w))
           (seq 0 out_h))
         (seq 0 (dim_n templates)))
       (seq 0 (dim_n input))).

(** The offsets (dc, di, dj) of a block, in the order the loops visit them. *)
Definition offsets (channels bh bw : nat) : list (nat * nat * nat) :=
  flat_map (fun dc =>
    flat_map (fun di => map (fun dj => (dc, di, dj)) (seq 0 bw)) (seq 0 bh))
    (seq 0 channels).

(** The sum of [f] over a list, from zero, in the list's order. *)
Definition sum_over {X : Type} (l : list X) (f : X -> T) : T :=
  fold_left (fun s x => add s (f x)) l zero.

(** The offsets of the window whose patch value is not NaN. *)
Definition active (input : Tensor4D) (g : Geometry) (flags : Flags)
    (b i j : nat) : list (nat * nat * nat) :=
  List.filter (fun o => negb (isnan (patch_value input g flags b i j o)))
    (offsets (dim_c input) (block_h g) (block_w g)).

End ForwardKernel.

Arguments Flags T : clear implicits.
Arguments Tensor4D T : clear implicits.

(** A tensor of the given extents holding [v] everywhere. *)
Definition constant {T : Type} (n c h w : nat) (v : T) : Tensor4D T :=
  mkTensor n c h w (repeat v (n * c * h * w)).

(** ** The contract of the shape check, as properties of the inputs *)

(** A shape whose rank is known and is not 4. *)
Definition rank_is_not_4 (s : ShapeHandle) : bool :=
  negb (Rank s =? 4) && negb (Rank s =? kUnknownRank).

(** Two dimensions that do not merge: both known, and different. *)
Definition dims_conflict (d0 d1 : DimensionHandle) : bool :=
  ValueKnown d0 && ValueKnown d1 && negb (d0 =? d1).

(** Dimension [idx] of a shape, unknown when the rank is. *)
Definition dim_at (s : ShapeHandle) (idx : nat) : DimensionHandle :=
  default kUnknownDim (Dim s idx).

(** The conditions the contract names for a failure: the arity of strides,
    the ranks, and a batch or in-channel dimension that does not merge. *)
Definition named_failure (strides : list Z) (input_shape template_shape : ShapeHandle) : bool :=
  negb (length strides =? 2)%nat
  || rank_is_not_4 input_shape
  || rank_is_not_4 template_shape
  || dims_conflict (dim_at input_shape 0) (dim_at template_shape 0)
  || dims_conflict (dim_at input_shape 1) (dim_at template_shape 1).

Section Rejection.

Variable GetSimnetsOutputSizeFromDims :
  DimensionHandle -> DimensionHandle -> Z -> Z -> bool -> StatusOr DimensionHandle.

(** The output extents the helper is asked for. *)
Definition output_rows (strides padding : list Z) (input_shape template_shape : ShapeHandle)
  : StatusOr DimensionHandle :=
  GetSimnetsOutputSizeFromDims (dim_at input_shape 2) (dim_at template_shape 2)
    (nth 0 strides 0) (nth 0 padding 0) true.

Definition output_cols (strides padding : list Z) (input_shape template_shape : ShapeHandle)
  : StatusOr DimensionHandle :=
  GetSimnetsOutputSizeFromDims (dim_at input_shape 3) (dim_at template_shape 3)
    (nth 1 strides 0) (nth 1 padding 0) true.

(** The conditions under which the code returns an error. *)
Definition rejected (strides padding : list Z) (input_shape template_shape : ShapeHandle) : bool :=
  rank_is_not_4 input_shape
  || rank_is_not_4 template_shape
  || negb (length strides =? 2)%nat
  || dims_conflict (dim_at input_shape 1) (dim_at template_shape 1)
  || negb (is_ok (output_rows strides padding input_shape template_shape))
  || negb (is_ok (output_cols strides padding input_shape template_shape)).

(** The checks that stand before the first use of the padding list. *)
Definition reaches_padding (strides : list Z) (input_shape template_shape : ShapeHandle) : bool :=
  negb (rank_is_not_4 input_shape)
  && negb (rank_is_not_4 template_shape)
  && (length strides =? 2)%nat
  && negb (dims_conflict (dim_at input_shape 1) (dim_at template_shape 1)).

End Rejection.

(** The context after [set_output(idx, shape)]. *)
Definition with_output (c : InferenceContext) (idx : nat) (shape : ShapeHandle)
  : InferenceContext :=
  mkContext (inputs c) (attrs c) (<[idx := Some shape]> (outputs c)).

(** The messages of the errors the shape check returns. *)
Definition rank_message (s : ShapeHandle) : string :=
  "Shape must be rank " +:+ pretty 4 +:+ " but is rank " +:+ pretty (Rank s).

Definition merge_message (d0 d1 : DimensionHandle) : string :=
  "Dimensions must be equal, but are " +:+ pretty d0 +:+ " and " +:+ pretty d1.

Definition strides_message (strides : list Z) : string :=
  "Similarity requires the stride attribute to contain 2 values, but got: "
    +:+ pretty (length strides).


(** An offset of the window that reads a NaN of the input: its coordinate
    is inside the input and the element there is NaN. *)
Definition reads_nan_input {T : Type} `{Scalar T} (input : Tensor4D T) (g : Geometry)
    (b i j : nat) (o : nat * nat * nat) : bool :=
  let '(dc, di, dj) := o in
  let row := input_row g i di in
  let col := input_col g j dj in
  in_bounds input row col && isnan (get input b dc (Z.to_nat row) (Z.to_nat col)).

(** An offset of the window whose coordinate is outside the input. *)
Definition falls_outside {T : Type} `{Scalar T} (input : Tensor4D T) (g : Geometry)
    (i j : nat) (o : nat * nat * nat) : bool :=
  let '(dc, di, dj) := o in
  negb (in_bounds input (input_row g i di) (input_col g j dj)).

(** The offsets left out when NaN is ignored: the ones that read a NaN of
    the input, and the ones outside the input when out_of_bounds_value is
    itself NaN. *)
Definition excluded {T : Type} `{Scalar T} (input : Tensor4D T) (g : Geometry)
    (flags : Flags T) (b i j : nat) (o : nat * nat * nat) : bool :=
  reads_nan_input input g b i j o
  || (isnan (out_of_bounds_value flags) && falls_outside input g i j o).

(** ** Binary64 values by class and sign *)

(** A binary64 number that is finite and above zero. *)
Definition positive64 (w : float) : bool :=
  match classify w with
  | PNormal | PSubn => true
  | _ => false
  end.

(** A binary64 number that is finite: neither NaN nor an infinity. *)
Definition finite64 (t : float) : bool :=
  match classify t with
  | PNormal | PSubn | NNormal | NSubn | PZero | NZero => true
  | _ => false
  end.

(** The weights of output channel [c] are finite and above zero and its
    templates are finite, on the whole block. *)
Definition parameters_sound (templates weights : Tensor4D float)
    (channels : nat) (g : Geometry) (c : nat) : bool :=
  forallb (fun o : nat * nat * nat =>
             let '(dc, di, dj) := o in
             positive64 (get weights c dc di dj) && finite64 (get templates c dc di dj))
          (offsets channels (block_h g) (block_w g)).

(** The same on the specification of binary64: not NaN; of sign [s] (a
    zero, a finite number or an infinity of that sign); not above zero (a
    zero of either sign, or negative); finite. *)
Definition SFnot_nan (x : spec_float) : bool :=
  match x with S754_nan => false | _ => true end.

Definition SFsigned (s : bool) (x : spec_float) : bool :=
  match x with
  | S754_nan => false
  | S754_zero s' => Bool.eqb s s'
  | S754_infinity s' => Bool.eqb s s'
  | S754_finite s' _ _ => Bool.eqb s s'
  end.

Definition SFnonpos (x : spec_float) : bool :=
  match x with
  | S754_nan => false
  | S754_zero _ => true
  | S754_infinity s => s
  | S754_finite s _ _ => s
  end.

Definition SFfinite (x : spec_float) : bool :=
  match x with
  | S754_zero _ => true
  | S754_finite _ _ _ => true
  | _ => false
  end.

(** The sum the documentation gives for output element (b, c, i, j): over
    all offsets (dc, di, dj) of the block, the weight at [c, dc, di, dj]
    times the distance between the template at [c, dc, di, dj] and the input
    at row [stride_h * i + di - pad_h] and column [stride_w * j + dj - pad_w]
    of channel dc, with [oob] standing for an input outside the extent. *)
Definition weighted_distance_sum {T : Type} `{Scalar T}
    (input templates weights : Tensor4D T) (g : Geometry) (mode : SimilarityFunction)
    (oob : T) (b c i j : nat) : T :=
  sum_over (offsets (dim_c input) (block_h g) (block_w g))
    (fun o : nat * nat * nat =>
       let '(dc, di, dj) := o in
       let row := stride_h g * Z.of_nat i + Z.of_nat di - pad_h g in
       let col := stride_w g * Z.of_nat j + Z.of_nat dj - pad_w g in
       let x :=
         if (0 <=? row) && (row <? Z.of_nat (dim_h input))
            && (0 <=? col) && (col <? Z.of_nat (dim_w input))
         then get input b dc (Z.to_nat row) (Z.to_nat col)
         else oob in
       mul (get weights c dc di dj) (phi mode x (get templates c dc di dj))).

(** Some patch value of the window is NaN and NaN is ignored. *)
Definition ignores_some_nan {T : Type} `{Scalar T} (input : Tensor4D T) (g : Geometry)
    (flags : Flags T) (b i j : nat) : bool :=
  ignore_nan_input flags
  && existsb (fun o => isnan (patch_value input g flags b i j o))
       (offsets (dim_c input) (block_h g) (block_w g)).

(** The node with its blocks attribute replaced. *)
Definition with_blocks (c : InferenceContext) (blocks : list Z) : InferenceContext :=
  mkContext (inputs c) (<["blocks" := AttrListInt blocks]> (attrs c)) (outputs c).

(** ** Nodes used as concrete inputs *)

(** The spec's scenario: a 4x4 input, 3x3 templates, stride 1, no padding. *)
Definition scenario_context : InferenceContext :=
  context_of (Similarity SimnetsOutputSize)
    [MakeShape [1; 1; 4; 4]; MakeShape [1; 1; 3; 3]; MakeShape [1; 1; 3; 3]]
    (node_attrs [3; 3] [1; 1] [0; 0]).

(** A batch of 2 against templates whose leading dimension is 5. *)
Definition batch_mismatch_context : InferenceContext :=
  context_of (Similarity SimnetsOutputSize)
    [MakeShape [2; 3; 8; 8]; MakeShape [5; 3; 3; 3]; MakeShape [5; 3; 3; 3]]
    (node_attrs [3; 3] [2; 2] [0; 0]).

(** Templates of 5x5 on a node whose blocks attribute says 3x3. *)
Definition blocks_mismatch_context : InferenceContext :=
  context_of (Similarity SimnetsOutputSize)
    [MakeShape [1; 1; 8; 8]; MakeShape [1; 1; 5; 5]; MakeShape [1; 1; 5; 5]]
    (node_attrs [3; 3] [1; 1] [0; 0]).

(** The scenario with an empty padding list. *)
Definition short_padding_context : InferenceContext :=
  context_of (Similarity SimnetsOutputSize)
    [MakeShape [1; 1; 4; 4]; MakeShape [1; 1; 3; 3]; MakeShape [1; 1; 3; 3]]
    (node_attrs [3; 3] [1; 1] []).

(** ** What a run tells the framework *)

(** The part of an outcome the framework goes on with: the shape in output
    slot 0 after an OK, the error, or nothing defined. *)
Inductive Verdict : Set :=
| Inferred (output_0 : option ShapeHandle)
| Rejected (code : Code) (msg : string)
| Unspecified.

Definition verdict (o : Outcome unit) : Verdict :=
  match o with
  | Returns _ c => Inferred (default None (outputs c !! 0%nat))
  | Fails code msg _ => Rejected code msg
  | Undefined => Unspecified
  end.

(** Two readings of an integer-list attribute that the shape function
    cannot tell apart when it looks at the first [n] entries only: the same
    error, or two lists with the same entries below [n]. *)
Definition same_reading (n : nat) (r1 r2 : StatusOr (list Z)) : Prop :=
  match r1, r2 with
  | Value l1, Value l2 => forall k : nat, (k < n)%nat -> l1 !! k = l2 !! k
  | NotOK code1 msg1, NotOK code2 msg2 => code1 = code2 /\ msg1 = msg2
  | _, _ => False
  end.

(** The node with its padding attribute replaced. *)
Definition with_padding (c : InferenceContext) (padding : list Z) : InferenceContext :=
  mkContext (inputs c) (<["padding" := AttrListInt padding]> (attrs c)) (outputs c).

(** A shape with its two spatial dimensions exchanged. *)
Definition transpose_hw (s : ShapeHandle) : ShapeHandle :=
  match s with
  | MakeShape [n; ch; h; w] => MakeShape [n; ch; w; h]
  | _ => s
  end.

(** The default a registration gives an integer-list attribute. *)
Definition default_int_list (op : OpDef) (name : string) : list Z :=
  match List.find (fun a => String.eqb (attr_name a) name) (attr op) with
  | Some (mkAttr _ _ (Some (DefaultListInt l))) => l
  | _ => []
  end.

(** The attributes of a node that keeps the defaults of the registration
    for its three integer lists. *)
Definition default_node_attrs (op : OpDef) : gmap string AttrValue :=
  node_attrs (default_int_list op "blocks") (default_int_list op "strides")
    (default_int_list op "padding").

(** A node whose blocks attribute holds a value past the range of [int32]. *)
Definition wide_blocks_context : InferenceContext :=
  context_of (Similarity SimnetsOutputSize)
    [MakeShape [1; 1; 4; 4]; MakeShape [1; 1; 3; 3]; MakeShape [1; 1; 3; 3]]
    (node_attrs [3; 4294967296] [1; 1] [0; 0]).

(** A node with three strides and no padding entry. *)
Definition three_strides_context : InferenceContext :=
  context_of (Similarity SimnetsOutputSize)
    [MakeShape [1; 1; 4; 4]; MakeShape [1; 1; 3; 3]; MakeShape [1; 1; 3; 3]]
    (node_attrs [3; 3] [1; 1; 1] []).

(** A node whose input is a matrix and whose padding list is empty. *)
Definition matrix_short_padding_context : InferenceContext :=
  context_of (Similarity SimnetsOutputSize)
    [MakeShape [4; 4]; MakeShape [1; 1; 3; 3]; MakeShape [1; 1; 3; 3]]
    (node_attrs [3; 3] [1; 1] []).

(** A node with a single padding entry and a row stride of 0. *)
Definition zero_stride_context : InferenceContext :=
  context_of (Similarity SimnetsOutputSize)
    [MakeShape [1; 1; 4; 4]; MakeShape [1; 1; 3; 3]; MakeShape [1; 1; 3; 3]]
    (node_attrs [3; 3] [0; 1] [0]).

(** A node whose input is a matrix. *)
Definition matrix_input_context : InferenceContext :=
  context_of (Similarity SimnetsOutputSize)
    [MakeShape [4; 4]; MakeShape [1; 1; 3; 3]; MakeShape [1; 1; 3; 3]]
    (node_attrs [3; 3] [1; 1] [0; 0]).

(** A node of 6x9 inputs and 3x2 templates, and the node with rows and
    columns exchanged. *)
Definition tall_context : InferenceContext :=
  context_of (Similarity SimnetsOutputSize)
    [MakeShape [2; 3; 6; 9]; MakeShape [5; 3; 3; 2]; MakeShape [5; 3; 3; 2]]
    (node_attrs [3; 2] [1; 2] [0; 1]).

Definition wide_context : InferenceContext :=
  context_of (Similarity SimnetsOutputSize)
    [MakeShape [2; 3; 9; 6]; MakeShape [5; 3; 2; 3]; MakeShape [5; 3; 2; 3]]
    (node_attrs [3; 2] [2; 1] [1; 0]).

(** ** Tensors used as concrete inputs *)

Definition fudge64 : float := 0x1.0624dd2f1a9fcp-10%float.

(** The spec's scenario: an input of ones, templates of zeros, weights of
    ones, 3x3 blocks at stride 1. *)
Definition ones_input : Tensor4D float := constant 1 1 4 4 1%float.
Definition zero_templates : Tensor4D float := constant 1 1 3 3 0%float.
Definition unit_weights : Tensor4D float := constant 1 1 3 3 1%float.
Definition scenario_geometry : Geometry := mkGeometry 3 3 1 1 0 0.
Definition plain_flags : Flags float := mkFlags false fudge64 false 0%float.
Definition normalizing_flags : Flags float := mkFlags true fudge64 false 0%float.

(** One row of two elements, covered by one 1x2 block. *)
Definition row_geometry : Geometry := mkGeometry 1 2 1 1 0 0.
Definition ignoring_flags : Flags float := mkFlags false fudge64 true 0%float.
Definition row_weights : Tensor4D float := constant 1 1 1 2 1%float.
Definition input_with_nan : Tensor4D float := mkTensor 1 1 1 2 [nan; 1%float].
Definition input_with_infinity : Tensor4D float := mkTensor 1 1 1 2 [nan; infinity].
Definition row_templates : Tensor4D float := constant 1 1 1 2 0%float.
Definition templates_with_infinity : Tensor4D float := mkTensor 1 1 1 2 [0%float; infinity].
Definition clean_input : Tensor4D float := constant 1 1 1 2 1%float.
Definition templates_with_nan : Tensor4D float := mkTensor 1 1 1 2 [nan; 0%float].

(** The row with NaN ignored and the normalization term on. *)
Definition ignoring_normalizing_flags : Flags float := mkFlags true fudge64 true 0%float.

(** A finite row whose first element is 2^700, under a first weight of 0. *)
Definition huge_input : Tensor4D float := mkTensor 1 1 1 2 [0x1p700%float; 1%float].
Definition weights_with_zero : Tensor4D float := mkTensor 1 1 1 2 [0%float; 1%float].

(** The row under a 1x3 block with one column of padding on each side and
    NaN as the value outside the input. *)
Definition padded_geometry : Geometry := mkGeometry 1 3 1 1 0 1.
Definition wide_templates : Tensor4D float := constant 1 1 1 3 0%float.
Definition wide_weights : Tensor4D float := constant 1 1 1 3 1%float.
Definition nan_outside_flags : Flags float := mkFlags false fudge64 true nan.
Definition nan_outside_kept_flags : Flags float := mkFlags false fudge64 false nan.

(** * Properties *)

(** ** The framework operations in closed form *)

(** [WithRank(shape, 4)] fails on a known rank other than 4, and gives the
    four dimensions of the shape otherwise. *)
Lemma WithRank_4 (s : ShapeHandle) :
  WithRank s 4 =
    if rank_is_not_4 s then InvalidArgument (rank_message s)
    else Value (MakeShape [dim_at s 0; dim_at s 1; dim_at s 2; dim_at s 3]).
Proof.
  destruct s as [|ds]; [reflexivity|].
  unfold WithRank, rank_is_not_4, rank_message.
  change (4 >? kint32max) with false. cbv iota zeta.
  destruct ds as [|a [|b [|c [|d [|e ds]]]]]; try reflexivity.
  assert (Hr : Rank (MakeShape (a :: b :: c :: d :: e :: ds)) = 5 + Z.of_nat (length ds)).
  { cbn [Rank length]. lia. }
  rewrite Hr. unfold kUnknownRank.
  destruct (Z.eqb_spec (5 + Z.of_nat (length ds)) 4); [lia|].
  destruct (Z.eqb_spec (5 + Z.of_nat (length ds)) (-1)); [lia|].
  reflexivity.
Qed.

(** [Merge] fails on two known, different dimensions only. *)
Lemma Merge_closed (d0 d1 : DimensionHandle) :
  Merge d0 d1 =
    if dims_conflict d0 d1 then InvalidArgument (merge_message d0 d1)
    else Value (if ValueKnown d1 then (if ValueKnown d0 then d0 else d1) else d0).
Proof.
  unfold Merge, dims_conflict, merge_message.
  destruct (ValueKnown d1), (ValueKnown d0), (d0 =? d1); reflexivity.
Qed.

(** After the arity check both strides can be indexed. *)
Lemma strides_of_length_2 (strides : list Z) :
  (length strides =? 2)%nat = true ->
  strides !! 0%nat = Some (nth 0 strides 0) /\ strides !! 1%nat = Some (nth 1 strides 0).
Proof.
  destruct strides as [|a [|b [|x l]]]; cbn; intros Hl; try discriminate.
  split; reflexivity.
Qed.

Section Run.

Variable GetSimnetsOutputSizeFromDims :
  DimensionHandle -> DimensionHandle -> Z -> Z -> bool -> StatusOr DimensionHandle.

Variables (c : InferenceContext) (input_shape template_shape : ShapeHandle).
Variables (strides blocks padding : list Z).
Hypothesis Hinput : inputs c !! 0%nat = Some input_shape.
Hypothesis Htemplates : inputs c !! 1%nat = Some template_shape.
Hypothesis Hstrides : GetAttr_int32s "strides" c = Value strides.
Hypothesis Hblocks : GetAttr_int32s "blocks" c = Value blocks.
Hypothesis Hpadding : GetAttr_int32s "padding" c = Value padding.

(** The run of the shape function, check by check. *)
Lemma SimilarityShape_run :
  SimilarityShape GetSimnetsOutputSizeFromDims c =
    if rank_is_not_4 input_shape then Fails INVALID_ARGUMENT (rank_message input_shape) c
    else if rank_is_not_4 template_shape
    then Fails INVALID_ARGUMENT (rank_message template_shape) c
    else if negb (length strides =? 2)%nat
    then Fails INVALID_ARGUMENT (strides_message strides) c
    else if dims_conflict (dim_at input_shape 1) (dim_at template_shape 1)
    then Fails INVALID_ARGUMENT
           (merge_message (dim_at input_shape 1) (dim_at template_shape 1)) c
    else
      match padding !! 0%nat with
      | None => Undefined
      | Some padding_0 =>
          match GetSimnetsOutputSizeFromDims (dim_at input_shape 2) (dim_at template_shape 2)
                  (nth 0 strides 0) padding_0 true with
          | NotOK code msg => Fails code msg c
          | Value rows =>
              match padding !! 1%nat with
              | None => Undefined
              | Some padding_1 =>
                  match GetSimnetsOutputSizeFromDims (dim_at input_shape 3)
                          (dim_at template_shape 3) (nth 1 strides 0) padding_1 true with
                  | NotOK code msg => Fails code msg c
                  | Value cols =>
                      if decide (0 < length (outputs c))%nat
                      then Returns tt
                             (with_output c 0
                                (MakeShape [dim_at input_shape 0; dim_at template_shape 0;
                                            rows; cols]))
                      else Undefined
                  end
              end
          end
      end.
Proof.
  unfold SimilarityShape, bind, input, defined, GetAttr, TF_RETURN_IF_ERROR,
    return_InvalidArgument.
  rewrite Hinput, WithRank_4.
  destruct (rank_is_not_4 input_shape); [reflexivity|].
  cbv beta iota. rewrite Htemplates, WithRank_4.
  destruct (rank_is_not_4 template_shape); [reflexivity|].
  cbv beta iota. rewrite Hstrides, Hblocks, Hpadding.
  destruct (length strides =? 2)%nat eqn:Hlen; [|reflexivity].
  destruct (strides_of_length_2 _ Hlen) as [Hs0 Hs1].
  cbn [negb]. cbv beta iota. rewrite Hs0, Hs1.
  cbn [Dim lookup list_lookup]. rewrite Merge_closed.
  destruct (dims_conflict (dim_at input_shape 1) (dim_at template_shape 1)); [reflexivity|].
  destruct (padding !! 0%nat) as [p0|]; [|reflexivity].
  destruct (GetSimnetsOutputSizeFromDims _ _ _ p0 true) as [rows|code msg]; [|reflexivity].
  destruct (padding !! 1%nat) as [p1|]; [|reflexivity].
  destruct (GetSimnetsOutputSizeFromDims _ _ _ p1 true) as [cols|code msg]; [|reflexivity].
  unfold set_output, ret, with_output.
  destruct (decide (0 < length (outputs c))%nat); reflexivity.
Qed.

End Run.

(** The spec's scenario: a 4x4 input and 3x3 templates at stride 1. *)
Example shape_scenario :
  SimilarityShape SimnetsOutputSize
    (context_of (Similarity SimnetsOutputSize)
       [MakeShape [1; 1; 4; 4]; MakeShape [1; 1; 3; 3]; MakeShape [1; 1; 3; 3]]
       (node_attrs [3; 3] [1; 1] [0; 0]))
  = Returns tt
      (mkContext [MakeShape [1; 1; 4; 4]; MakeShape [1; 1; 3; 3]; MakeShape [1; 1; 3; 3]]
         (node_attrs [3; 3] [1; 1] [0; 0])
         [Some (MakeShape [1; 1; 2; 2])]).
Proof. vm_compute. reflexivity. Qed.

(** ** Contexts used as concrete inputs *)

(** The three integer lists of a node can be read back when they fit. *)
Lemma node_attrs_readable (blocks strides padding : list Z)
    (ins : list ShapeHandle) (outs : list (option ShapeHandle)) :
  forallb fits_int32 blocks = true ->
  forallb fits_int32 strides = true ->
  forallb fits_int32 padding = true ->
  let c := mkContext ins (node_attrs blocks strides padding) outs in
  GetAttr_int32s "strides" c = Value strides
  /\ GetAttr_int32s "blocks" c = Value blocks
  /\ GetAttr_int32s "padding" c = Value padding.
Proof.
  assert (Hfind : forall l, forallb fits_int32 l = true ->
                    List.find (fun v => negb (fits_int32 v)) l = None).
  { induction l as [|v l IH]; cbn; [reflexivity|].
    intros [Hv Hl]%andb_prop. rewrite Hv. cbn. auto. }
  intros Hb Hs Hp c. unfold GetAttr_int32s, c, node_attrs. cbn [attrs].
  repeat split.
  - do 3 (rewrite lookup_insert_ne by discriminate).
    rewrite lookup_insert_eq, (Hfind _ Hs). reflexivity.
  - do 2 (rewrite lookup_insert_ne by discriminate).
    rewrite lookup_insert_eq, (Hfind _ Hb). reflexivity.
  - do 4 (rewrite lookup_insert_ne by discriminate).
    rewrite lookup_insert_eq, (Hfind _ Hp). reflexivity.
Qed.

(** ** The shape check of Similarity *)

(** A run that returns OK has read both input shapes and the three
    attribute lists. *)
Lemma SimilarityShape_Returns_inv
    (helper : DimensionHandle -> DimensionHandle -> Z -> Z -> bool -> StatusOr DimensionHandle)
    (c c' : InferenceContext) (u : unit) :
  SimilarityShape helper c = Returns u c' ->
  exists input_shape template_shape strides blocks padding,
    inputs c !! 0%nat = Some input_shape
    /\ inputs c !! 1%nat = Some template_shape
    /\ GetAttr_int32s "strides" c = Value strides
    /\ GetAttr_int32s "blocks" c = Value blocks
    /\ GetAttr_int32s "padding" c = Value padding.
Proof.
  unfold SimilarityShape, bind, input, defined, GetAttr, TF_RETURN_IF_ERROR.
  intros Hrun.
  destruct (inputs c !! 0%nat) as [input_shape|]; [|discriminate].
  destruct (WithRank input_shape 4); [|discriminate].
  destruct (inputs c !! 1%nat) as [template_shape|]; [|discriminate].
  destruct (WithRank template_shape 4); [|discriminate].
  destruct (GetAttr_int32s "strides" c) as [strides|]; [|discriminate].
  destruct (GetAttr_int32s "blocks" c) as [blocks|]; [|discriminate].
  destruct (GetAttr_int32s "padding" c) as [padding|]; [|discriminate].
  exists input_shape, template_shape, strides, blocks, padding. auto.
Qed.

(** A run that returns OK, read off the closed form: every check passed,
    the padding list has its two entries, the helper gave both extents. *)
Lemma SimilarityShape_Returns_run
    (helper : DimensionHandle -> DimensionHandle -> Z -> Z -> bool -> StatusOr DimensionHandle)
    (c c' : InferenceContext) (u : unit)
    (input_shape template_shape : ShapeHandle) (strides blocks padding : list Z) :
  inputs c !! 0%nat = Some input_shape ->
  inputs c !! 1%nat = Some template_shape ->
  GetAttr_int32s "strides" c = Value strides ->
  GetAttr_int32s "blocks" c = Value blocks ->
  GetAttr_int32s "padding" c = Value padding ->
  SimilarityShape helper c = Returns u c' ->
  exists rows cols,
    output_rows helper strides padding input_shape template_shape = Value rows
    /\ output_cols helper strides padding input_shape template_shape = Value cols
    /\ (0 < length (outputs c))%nat
    /\ (2 <= length padding)%nat
    /\ c' = with_output c 0
              (MakeShape [dim_at input_shape 0; dim_at template_shape 0; rows; cols]).
Proof.
  intros Hi Ht Hs Hb Hp.
  rewrite (SimilarityShape_run helper c _ _ _ _ _ Hi Ht Hs Hb Hp).
  unfold output_rows, output_cols.
  destruct (rank_is_not_4 input_shape); [discriminate|].
  destruct (rank_is_not_4 template_shape); [discriminate|].
  destruct (negb (length strides =? 2)%nat); [discriminate|].
  destruct (dims_conflict _ _); [discriminate|].
  destruct padding as [|p0 [|p1 padding]]; cbn [lookup list_lookup nth]; try discriminate.
  - destruct (helper _ _ _ p0 true); discriminate.
  - destruct (helper _ _ _ p0 true) as [rows|]; [|discriminate].
    destruct (helper _ _ _ p1 true) as [cols|]; [|discriminate].
    destruct (decide (0 < length (outputs c))%nat) as [Hout|]; [|discriminate].
    intros [= <-]. exists rows, cols. cbn [length]. repeat split; auto; lia.
Qed.

(** Closes a case in which the run has stopped at an error. *)
Ltac rejecting :=
  cbn;
  split; [split; [intros _; eauto | reflexivity]
         |split; [intros ? ? ? [= <- <- <-]; auto | discriminate]].

Section Contract.

Variable GetSimnetsOutputSizeFromDims :
  DimensionHandle -> DimensionHandle -> Z -> Z -> bool -> StatusOr DimensionHandle.

Variables (c : InferenceContext) (input_shape template_shape : ShapeHandle).
Variables (strides blocks padding : list Z).
Hypothesis Hinput : inputs c !! 0%nat = Some input_shape.
Hypothesis Htemplates : inputs c !! 1%nat = Some template_shape.
Hypothesis Hstrides : GetAttr_int32s "strides" c = Value strides.
Hypothesis Hblocks : GetAttr_int32s "blocks" c = Value blocks.
Hypothesis Hpadding : GetAttr_int32s "padding" c = Value padding.
Hypothesis Houtput : (0 < length (outputs c))%nat.

Local Abbreviation outcome := (SimilarityShape GetSimnetsOutputSizeFromDims c).
Local Abbreviation rows :=
  (output_rows GetSimnetsOutputSizeFromDims strides padding input_shape template_shape).
Local Abbreviation cols :=
  (output_cols GetSimnetsOutputSizeFromDims strides padding input_shape template_shape).

(** C2, as the code has it: on a node whose two shapes and three integer
    lists can be read and whose padding has its two entries, the shape
    check returns an error exactly when the input or the templates have a
    known rank other than 4, or strides does not hold exactly 2 values, or
    the in-channel dimensions (dimension 1) of input and templates are both
    known and differ, or the output-size helper reports an error for the
    rows or the columns. The error is InvalidArgument or the helper's own,
    the context is left as it was (no output is set), and in every other
    case the check returns OK with output 0 set. The batch dimension is
    compared with nothing. *)
Theorem similarity_shape_check_outcome :
  (2 <= length padding)%nat ->
  (rejected GetSimnetsOutputSizeFromDims strides padding input_shape template_shape = true
     <-> exists code msg c', outcome = Fails code msg c')
  /\ (forall code msg c',
        outcome = Fails code msg c' ->
        c' = c
        /\ (code = INVALID_ARGUMENT \/ rows = NotOK code msg \/ cols = NotOK code msg))
  /\ (rejected GetSimnetsOutputSizeFromDims strides padding input_shape template_shape = false ->
      exists r k,
        rows = Value r /\ cols = Value k
        /\ outcome = Returns tt
                   (with_output c 0
                      (MakeShape [dim_at input_shape 0; dim_at template_shape 0; r; k]))).
Proof.
  intros Hlen.
  rewrite (SimilarityShape_run _ c _ _ _ _ _ Hinput Htemplates Hstrides Hblocks Hpadding).
  unfold rejected, output_rows, output_cols.
  destruct padding as [|p0 [|p1 pad]]; cbn [length] in Hlen; try lia.
  cbn [lookup list_lookup nth].
  destruct (rank_is_not_4 input_shape);
    [rejecting|].
  destruct (rank_is_not_4 template_shape);
    [rejecting|].
  destruct (negb (length strides =? 2)%nat);
    [rejecting|].
  destruct (dims_conflict _ _);
    [rejecting|].
  cbn [orb negb].
  destruct (GetSimnetsOutputSizeFromDims _ _ _ p0 true) as [r|code0 msg0];
    [|rejecting].
  destruct (GetSimnetsOutputSizeFromDims _ _ _ p1 true) as [k|code1 msg1];
    [|rejecting].
  destruct (decide (0 < length (outputs c))%nat) as [_|Hno]; [|lia].
  cbn. repeat split; try discriminate; eauto.
  intros (code & msg & c' & Hf). discriminate.
Qed.

(** C10, as the code has it: the padding list is indexed at 0 and 1 with
    no check of its length. On a node whose shapes and integer lists can be read, the shape
    function indexes padding out of range, with no defined result and no
    InvalidArgument error, exactly when the checks before the access pass
    (ranks, arity of strides, in-channel merge) and padding has fewer than 2
    entries (with a single entry, once the helper has returned the rows); a
    padding list of at least 2 entries makes the run free of out-of-range
    accesses. *)
Theorem padding_indexed_unchecked :
  (outcome = Undefined
     <-> reaches_padding strides input_shape template_shape = true
         /\ (length padding < 2)%nat
         /\ (padding = [] \/ is_ok rows = true))
  /\ ((2 <= length padding)%nat -> outcome <> Undefined).
Proof.
  rewrite (SimilarityShape_run _ c _ _ _ _ _ Hinput Htemplates Hstrides Hblocks Hpadding).
  unfold reaches_padding, output_rows.
  destruct (rank_is_not_4 input_shape);
    [cbn; split; [split; [discriminate|intros [? _]; discriminate]|discriminate]|].
  destruct (rank_is_not_4 template_shape);
    [cbn; split; [split; [discriminate|intros [? _]; discriminate]|discriminate]|].
  destruct (length strides =? 2)%nat;
    [|cbn; split; [split; [discriminate|intros [? _]; discriminate]|discriminate]].
  destruct (dims_conflict _ _);
    [cbn; split; [split; [discriminate|intros [? _]; discriminate]|discriminate]|].
  cbn [negb andb].
  destruct padding as [|p0 [|p1 pad]]; cbn [lookup list_lookup nth length].
  - split; [|lia]. split; [intros _; repeat split; auto|reflexivity].
  - destruct (GetSimnetsOutputSizeFromDims _ _ _ p0 true) as [r|code0 msg0]; cbn [is_ok].
    + split; [|lia]. split; [intros _; repeat split; auto|reflexivity].
    + split; [|discriminate]. split; [discriminate|].
      intros (_ & _ & [Hnil|Hok]); discriminate.
  - destruct (GetSimnetsOutputSizeFromDims _ _ _ p0 true) as [r|code0 msg0];
      [|split; [split; [discriminate|intros (_ & ? & _); lia]|discriminate]].
    destruct (GetSimnetsOutputSizeFromDims _ _ _ p1 true) as [k|code1 msg1];
      [|split; [split; [discriminate|intros (_ & ? & _); lia]|discriminate]].
    destruct (decide (0 < length (outputs c))%nat) as [_|Hno]; [|lia].
    split; [split; [discriminate|intros (_ & ? & _); lia]|discriminate].
Qed.

End Contract.

Lemma with_output_lookup (c : InferenceContext) (idx : nat) (shape : ShapeHandle) :
  (idx < length (outputs c))%nat ->
  outputs (with_output c idx shape) !! idx = Some (Some shape).
Proof. intros Hidx. unfold with_output. cbn [outputs]. apply list_lookup_insert_eq, Hidx. Qed.

Lemma with_blocks_readable (c : InferenceContext) (blocks' : list Z) (name : string) :
  name <> "blocks" ->
  GetAttr_int32s name (with_blocks c blocks') = GetAttr_int32s name c.
Proof.
  intros Hne. unfold GetAttr_int32s, with_blocks. cbn [attrs].
  rewrite lookup_insert_ne by congruence. reflexivity.
Qed.

Lemma with_blocks_blocks (c : InferenceContext) (blocks' : list Z) :
  forallb fits_int32 blocks' = true ->
  GetAttr_int32s "blocks" (with_blocks c blocks') = Value blocks'.
Proof.
  intros Hfits. unfold GetAttr_int32s, with_blocks. cbn [attrs].
  rewrite lookup_insert_eq.
  replace (List.find (fun v => negb (fits_int32 v)) blocks') with (@None Z); [reflexivity|].
  induction blocks' as [|v l IH]; cbn in *; [reflexivity|].
  apply andb_prop in Hfits as [Hv Hl]. rewrite Hv. cbn. auto.
Qed.

(** C3: when the shape inference of Similarity returns OK, output 0 is the
    rank-4 shape [batch, out_channels, output_h, output_w]: batch is
    dimension 0 of the input, out_channels is dimension 0 of the templates,
    and the two extents are the ones the output-size helper returned. *)
Theorem inferred_output_shape
    (helper : DimensionHandle -> DimensionHandle -> Z -> Z -> bool -> StatusOr DimensionHandle)
    (c c' : InferenceContext) :
  SimilarityShape helper c = Returns tt c' ->
  exists input_shape template_shape strides padding output_h output_w,
    inputs c !! 0%nat = Some input_shape
    /\ inputs c !! 1%nat = Some template_shape
    /\ GetAttr_int32s "strides" c = Value strides
    /\ GetAttr_int32s "padding" c = Value padding
    /\ output_rows helper strides padding input_shape template_shape = Value output_h
    /\ output_cols helper strides padding input_shape template_shape = Value output_w
    /\ outputs c' !! 0%nat =
         Some (Some (MakeShape [dim_at input_shape 0; dim_at template_shape 0;
                                output_h; output_w])).
Proof.
  intros Hrun.
  destruct (SimilarityShape_Returns_inv _ _ _ _ Hrun)
    as (input_shape & template_shape & strides & blocks & padding & Hi & Ht & Hs & Hb & Hp).
  destruct (SimilarityShape_Returns_run _ _ _ _ _ _ _ _ _ Hi Ht Hs Hb Hp Hrun)
    as (rows & cols & Hrows & Hcols & Hout & _ & ->).
  exists input_shape, template_shape, strides, padding, rows, cols.
  repeat split; auto using with_output_lookup.
Qed.

(** C4, as the code has it: when the shape inference of Similarity returns
    OK, the output height is the helper's value for the input height, the
    height of the templates tensor (its dimension 2), the row stride and the
    row padding, and the output width likewise from dimension 3; the blocks
    attribute is read and not used, so that any other readable blocks list
    gives the same output shape. *)
Theorem output_extents_from_templates
    (helper : DimensionHandle -> DimensionHandle -> Z -> Z -> bool -> StatusOr DimensionHandle)
    (c c' : InferenceContext) :
  SimilarityShape helper c = Returns tt c' ->
  exists input_shape template_shape strides padding output_h output_w,
    inputs c !! 0%nat = Some input_shape
    /\ inputs c !! 1%nat = Some template_shape
    /\ GetAttr_int32s "strides" c = Value strides
    /\ GetAttr_int32s "padding" c = Value padding
    /\ helper (dim_at input_shape 2) (dim_at template_shape 2)
         (nth 0 strides 0) (nth 0 padding 0) true = Value output_h
    /\ helper (dim_at input_shape 3) (dim_at template_shape 3)
         (nth 1 strides 0) (nth 1 padding 0) true = Value output_w
    /\ outputs c' !! 0%nat =
         Some (Some (MakeShape [dim_at input_shape 0; dim_at template_shape 0;
                                output_h; output_w]))
    /\ forall blocks' : list Z,
         forallb fits_int32 blocks' = true ->
         SimilarityShape helper (with_blocks c blocks') = Returns tt (with_blocks c' blocks').
Proof.
  intros Hrun.
  destruct (SimilarityShape_Returns_inv _ _ _ _ Hrun)
    as (input_shape & template_shape & strides & blocks & padding & Hi & Ht & Hs & Hb & Hp).
  destruct (SimilarityShape_Returns_run _ _ _ _ _ _ _ _ _ Hi Ht Hs Hb Hp Hrun)
    as (rows & cols & Hrows & Hcols & Hout & Hlen & Hc').
  exists input_shape, template_shape, strides, padding, rows, cols.
  repeat split; auto.
  - subst c'. auto using with_output_lookup.
  - intros blocks' Hfits.
    rewrite (SimilarityShape_run helper (with_blocks c blocks')
               input_shape template_shape strides blocks' padding); auto.
    + rewrite (SimilarityShape_run helper c _ _ _ _ _ Hi Ht Hs Hb Hp) in Hrun.
      destruct (rank_is_not_4 input_shape); [discriminate|].
      destruct (rank_is_not_4 template_shape); [discriminate|].
      destruct (negb (length strides =? 2)%nat); [discriminate|].
      destruct (dims_conflict _ _); [discriminate|].
      destruct (padding !! 0%nat) as [p0|]; [|discriminate].
      destruct (helper _ _ _ p0 true); [|discriminate].
      destruct (padding !! 1%nat) as [p1|]; [|discriminate].
      destruct (helper _ _ _ p1 true); [|discriminate].
      cbn [with_blocks outputs].
      destruct (decide (0 < length (outputs c))%nat); [|discriminate].
      injection Hrun as <-. reflexivity.
    + rewrite with_blocks_readable by discriminate. exact Hs.
    + apply with_blocks_blocks, Hfits.
    + rewrite with_blocks_readable by discriminate. exact Hp.
Qed.

(** C5: whenever SimilarityParametersGrad is run on a context that has its
    templates (input 1) and weights (input 2) and its two output slots,
    shape inference returns OK with templates_grad (output 0) of exactly the
    shape of templates and weights_grad (output 1) of exactly the shape of
    weights; nothing else is read, so the batch size and the spatial sizes
    of the input and of the output gradient play no part. *)
Theorem parameters_grad_shapes (c : InferenceContext)
    (template_shape weights_shape : ShapeHandle) :
  inputs c !! 1%nat = Some template_shape ->
  inputs c !! 2%nat = Some weights_shape ->
  (length (output_arg SimilarityParametersGrad) <= length (outputs c))%nat ->
  exists c',
    shape_fn SimilarityParametersGrad c = Returns tt c'
    /\ outputs c' !! 0%nat = Some (Some template_shape)
    /\ outputs c' !! 1%nat = Some (Some weights_shape)
    /\ inputs c' = inputs c
    /\ attrs c' = attrs c.
Proof.
  cbn [SimilarityParametersGrad output_arg shape_fn length].
  intros Ht Hw Hout.
  unfold SimilarityParametersGradShape, bind, input, defined, set_output, ret.
  rewrite Ht. cbn [outputs inputs].
  destruct (decide (0 < length (outputs c))%nat) as [_|Hno]; [|lia].
  cbn [outputs inputs]. rewrite Hw. cbn [outputs inputs attrs]. rewrite length_insert.
  destruct (decide (1 < length (outputs c))%nat) as [H1|Hno]; [|lia].
  eexists. split; [reflexivity|]. cbn [outputs inputs attrs].
  repeat split.
  - rewrite list_lookup_insert_ne by lia. apply list_lookup_insert_eq. lia.
  - apply list_lookup_insert_eq. rewrite length_insert. exact H1.
Qed.

(** C6: whenever SimilarityInputGrad is run on a context that has its
    first input and its output slot, shape inference returns OK with the
    output of exactly the shape of the first input, the input tensor. *)
Theorem input_grad_shape (c : InferenceContext) (input_shape : ShapeHandle) :
  inputs c !! 0%nat = Some input_shape ->
  (length (output_arg SimilarityInputGrad) <= length (outputs c))%nat ->
  exists c',
    shape_fn SimilarityInputGrad c = Returns tt c'
    /\ outputs c' !! 0%nat = Some (Some input_shape)
    /\ inputs c' = inputs c
    /\ attrs c' = attrs c.
Proof.
  cbn [SimilarityInputGrad output_arg shape_fn length].
  intros Hi Hout.
  unfold UnchangedShape, bind, input, defined, set_output.
  rewrite Hi.
  destruct (decide (0 < length (outputs c))%nat) as [H0|Hno]; [|lia].
  eexists. split; [reflexivity|]. cbn [outputs inputs attrs].
  repeat split. apply list_lookup_insert_eq. exact H0.
Qed.

(** C7: SimilarityRef is registered with the inputs, the output, the
    attributes (names, types, defaults) and the shape function of
    Similarity, so that on every list of input shapes and every attribute
    map both build the same context and infer the same result. *)
Theorem similarity_ref_same_contract
    (helper : DimensionHandle -> DimensionHandle -> Z -> Z -> bool -> StatusOr DimensionHandle) :
  input_arg (SimilarityRef helper) = input_arg (Similarity helper)
  /\ output_arg (SimilarityRef helper) = output_arg (Similarity helper)
  /\ attr (SimilarityRef helper) = attr (Similarity helper)
  /\ forall (ins : list ShapeHandle) (node : gmap string AttrValue),
       context_of (SimilarityRef helper) ins node = context_of (Similarity helper) ins node
       /\ shape_fn (SimilarityRef helper) (context_of (SimilarityRef helper) ins node)
          = shape_fn (Similarity helper) (context_of (Similarity helper) ins node).
Proof. repeat split. Qed.

(** ** The theorems at concrete nodes *)

(** C2 as stated fails: the batch of the input (2) and the leading
    dimension of the templates (5) do not merge, which the claim names as a
    failure, and the shape check returns OK, with any helper that sizes an
    extent of 8 under a block of 3 at stride 2. *)
Lemma batch_mismatch_accepted :
  named_failure [2; 2] (MakeShape [2; 3; 8; 8]) (MakeShape [5; 3; 3; 3]) = true
  /\ SimilarityShape SimnetsOutputSize batch_mismatch_context
     = Returns tt (with_output batch_mismatch_context 0 (MakeShape [2; 5; 3; 3]))
  /\ forall (helper : DimensionHandle -> DimensionHandle -> Z -> Z -> bool
                      -> StatusOr DimensionHandle) (extent : DimensionHandle),
       helper 8 3 2 0 true = Value extent ->
       SimilarityShape helper batch_mismatch_context
       = Returns tt (with_output batch_mismatch_context 0 (MakeShape [2; 5; extent; extent])).
Proof.
  split; [reflexivity|]. split; [vm_compute; reflexivity|].
  intros helper extent Hextent.
  rewrite (SimilarityShape_run helper batch_mismatch_context
             (MakeShape [2; 3; 8; 8]) (MakeShape [5; 3; 3; 3]) [2; 2] [3; 3] [0; 0])
    by (vm_compute; reflexivity).
  change (rank_is_not_4 (MakeShape [2; 3; 8; 8])) with false.
  change (rank_is_not_4 (MakeShape [5; 3; 3; 3])) with false.
  cbn -[with_output batch_mismatch_context]. rewrite Hextent.
  reflexivity.
Qed.

(** The spec's scenario is a node the shape check accepts. *)
Lemma similarity_shape_check_outcome_witness :
  rejected SimnetsOutputSize [1; 1] [0; 0] (MakeShape [1; 1; 4; 4]) (MakeShape [1; 1; 3; 3])
  = false
  /\ exists r k,
       SimilarityShape SimnetsOutputSize scenario_context
       = Returns tt (with_output scenario_context 0 (MakeShape [1; 1; r; k])).
Proof.
  split; [vm_compute; reflexivity|].
  destruct (similarity_shape_check_outcome SimnetsOutputSize scenario_context
              (MakeShape [1; 1; 4; 4]) (MakeShape [1; 1; 3; 3]) [1; 1] [3; 3] [0; 0])
    as (_ & _ & Haccepted);
    [reflexivity|reflexivity|vm_compute; reflexivity|vm_compute; reflexivity
    |vm_compute; reflexivity|cbn; lia|cbn; lia|].
  destruct Haccepted as (r & k & _ & _ & Hrun); [vm_compute; reflexivity|].
  exists r, k. exact Hrun.
Defined.

(** C10 as stated fails: a padding list of fewer than 2 entries does not
    always lead to the out-of-range access. An earlier check returns its
    InvalidArgument error first, for three strides or for a matrix as input
    under an empty padding list; and with a single padding entry the error
    of the helper for the rows is returned before padding is indexed at 1. *)
Lemma short_padding_refused_before_access :
  (GetAttr_int32s "padding" three_strides_context = Value []
   /\ SimilarityShape SimnetsOutputSize three_strides_context
      = Fails INVALID_ARGUMENT
          "Similarity requires the stride attribute to contain 2 values, but got: 3"
          three_strides_context)
  /\ (GetAttr_int32s "padding" matrix_short_padding_context = Value []
      /\ SimilarityShape SimnetsOutputSize matrix_short_padding_context
         = Fails INVALID_ARGUMENT "Shape must be rank 4 but is rank 2"
             matrix_short_padding_context)
  /\ (GetAttr_int32s "padding" zero_stride_context = Value [0]
      /\ SimilarityShape SimnetsOutputSize zero_stride_context
         = Fails INVALID_ARGUMENT "Stride must be > 0, but got 0" zero_stride_context).
Proof. repeat split; vm_compute; reflexivity. Qed.

(** With an empty padding list the scenario indexes padding out of range. *)
Lemma padding_indexed_unchecked_witness :
  GetAttr_int32s "padding" short_padding_context = Value []
  /\ SimilarityShape SimnetsOutputSize short_padding_context = Undefined.
Proof.
  split; [vm_compute; reflexivity|].
  apply (padding_indexed_unchecked SimnetsOutputSize short_padding_context
           (MakeShape [1; 1; 4; 4]) (MakeShape [1; 1; 3; 3]) [1; 1] [3; 3] []);
    [reflexivity|reflexivity|vm_compute; reflexivity|vm_compute; reflexivity
    |vm_compute; reflexivity|cbn; lia|].
  repeat split; [cbn; lia|left; reflexivity].
Defined.

(** The output shape of the spec's scenario, [1, 1, 2, 2]. *)
Lemma inferred_output_shape_witness :
  exists input_shape template_shape strides padding output_h output_w,
    inputs scenario_context !! 0%nat = Some input_shape
    /\ inputs scenario_context !! 1%nat = Some template_shape
    /\ GetAttr_int32s "strides" scenario_context = Value strides
    /\ GetAttr_int32s "padding" scenario_context = Value padding
    /\ output_rows SimnetsOutputSize strides padding input_shape template_shape
       = Value output_h
    /\ output_cols SimnetsOutputSize strides padding input_shape template_shape
       = Value output_w
    /\ outputs (with_output scenario_context 0 (MakeShape [1; 1; 2; 2])) !! 0%nat =
         Some (Some (MakeShape [dim_at input_shape 0; dim_at template_shape 0;
                                output_h; output_w])).
Proof.
  apply (inferred_output_shape SimnetsOutputSize scenario_context
           (with_output scenario_context 0 (MakeShape [1; 1; 2; 2]))).
  vm_compute. reflexivity.
Defined.

(** C4 as stated fails: with a blocks attribute of 3x3 and templates of
    5x5 on an 8x8 input, the inferred extents are the helper's for a block
    of 5 (here 4), not for the 3 of the attribute (here 6). *)
Lemma blocks_attribute_not_used :
  GetAttr_int32s "blocks" blocks_mismatch_context = Value [3; 3]
  /\ SimilarityShape SimnetsOutputSize blocks_mismatch_context
     = Returns tt (with_output blocks_mismatch_context 0 (MakeShape [1; 1; 4; 4]))
  /\ SimnetsOutputSize 8 3 1 0 true = Value 6
  /\ forall (helper : DimensionHandle -> DimensionHandle -> Z -> Z -> bool
                      -> StatusOr DimensionHandle) (extent : DimensionHandle),
       helper 8 5 1 0 true = Value extent ->
       SimilarityShape helper blocks_mismatch_context
       = Returns tt (with_output blocks_mismatch_context 0 (MakeShape [1; 1; extent; extent])).
Proof.
  split; [vm_compute; reflexivity|]. split; [vm_compute; reflexivity|].
  split; [reflexivity|].
  intros helper extent Hextent.
  rewrite (SimilarityShape_run helper blocks_mismatch_context
             (MakeShape [1; 1; 8; 8]) (MakeShape [1; 1; 5; 5]) [1; 1] [3; 3] [0; 0])
    by (vm_compute; reflexivity).
  change (rank_is_not_4 (MakeShape [1; 1; 8; 8])) with false.
  change (rank_is_not_4 (MakeShape [1; 1; 5; 5])) with false.
  cbn -[with_output blocks_mismatch_context]. rewrite Hextent.
  reflexivity.
Qed.

(** The extents of the node with 5x5 templates, for every blocks list. *)
Lemma output_extents_from_templates_witness :
  exists input_shape template_shape strides padding output_h output_w,
    inputs blocks_mismatch_context !! 0%nat = Some input_shape
    /\ inputs blocks_mismatch_context !! 1%nat = Some template_shape
    /\ GetAttr_int32s "strides" blocks_mismatch_context = Value strides
    /\ GetAttr_int32s "padding" blocks_mismatch_context = Value padding
    /\ SimnetsOutputSize (dim_at input_shape 2) (dim_at template_shape 2)
         (nth 0 strides 0) (nth 0 padding 0) true = Value output_h
    /\ SimnetsOutputSize (dim_at input_shape 3) (dim_at template_shape 3)
         (nth 1 strides 0) (nth 1 padding 0) true = Value output_w
    /\ outputs (with_output blocks_mismatch_context 0 (MakeShape [1; 1; 4; 4])) !! 0%nat =
         Some (Some (MakeShape [dim_at input_shape 0; dim_at template_shape 0;
                                output_h; output_w]))
    /\ forall blocks' : list Z,
         forallb fits_int32 blocks' = true ->
         SimilarityShape SimnetsOutputSize (with_blocks blocks_mismatch_context blocks')
         = Returns tt
             (with_blocks (with_output blocks_mismatch_context 0 (MakeShape [1; 1; 4; 4]))
                blocks').
Proof.
  apply (output_extents_from_templates SimnetsOutputSize blocks_mismatch_context
           (with_output blocks_mismatch_context 0 (MakeShape [1; 1; 4; 4]))).
  vm_compute. reflexivity.
Defined.

(** ** The loops of the forward kernel *)

Lemma fold_left_flat_map {A B S : Type} (g : S -> B -> S) (f : A -> list B)
    (l : list A) (s : S) :
  fold_left g (flat_map f l) s = fold_left (fun s x => fold_left g (f x) s) l s.
Proof.
  revert s. induction l as [|x l IH]; intros s; cbn [flat_map fold_left]; [reflexivity|].
  rewrite fold_left_app. apply IH.
Qed.

Lemma fold_left_map' {A B S : Type} (g : S -> B -> S) (h : A -> B) (l : list A) (s : S) :
  fold_left g (map h l) s = fold_left (fun s x => g s (h x)) l s.
Proof.
  revert s. induction l as [|x l IH]; intros s; cbn [map fold_left]; [reflexivity|apply IH].
Qed.

Lemma fold_left_pointwise {A S : Type} (f g : S -> A -> S) (l : list A) (s : S) :
  (forall s x, f s x = g s x) -> fold_left f l s = fold_left g l s.
Proof.
  intros Hfg. revert s.
  induction l as [|x l IH]; intros s; cbn [fold_left]; [reflexivity|].
  rewrite Hfg. apply IH.
Qed.

(** The three nested loops visit the offsets of the block in order. *)
Lemma nested_loops {S : Type} (channels bh bw : nat) (body : nat * nat * nat -> S -> S)
    (s : S) :
  for_range channels (fun dc =>
    for_range bh (fun di => for_range bw (fun dj => body (dc, di, dj)))) s
  = fold_left (fun s o => body o s) (offsets channels bh bw) s.
Proof.
  unfold for_range, offsets.
  rewrite fold_left_flat_map. apply fold_left_pointwise. intros s1 dc.
  rewrite fold_left_flat_map. apply fold_left_pointwise. intros s2 di.
  rewrite fold_left_map'. reflexivity.
Qed.

Lemma length_flat_map_const {A B : Type} (f : A -> list B) (m : nat) (l : list A) :
  (forall x, length (f x) = m) -> length (flat_map f l) = (length l * m)%nat.
Proof.
  intros Hf. induction l as [|x l IH]; cbn [flat_map length]; [reflexivity|].
  rewrite length_app, Hf, IH. cbn. reflexivity.
Qed.

Lemma length_offsets (channels bh bw : nat) :
  length (offsets channels bh bw) = (channels * bh * bw)%nat.
Proof.
  unfold offsets.
  rewrite (length_flat_map_const _ (bh * bw)).
  - rewrite length_seq. lia.
  - intros dc. rewrite (length_flat_map_const _ bw).
    + rewrite length_seq. reflexivity.
    + intros di. rewrite length_map, length_seq. reflexivity.
Qed.

Lemma length_filter_split {A : Type} (p : A -> bool) (l : list A) :
  length l
  = (length (List.filter p l) + length (List.filter (fun x => negb (p x)) l))%nat.
Proof.
  induction l as [|x l IH]; [reflexivity|].
  cbn [List.filter]. destruct (p x); cbn [negb length]; lia.
Qed.

Section ForwardProperties.

Context {T : Type} `{Scalar T}.

Variables (input templates weights : Tensor4D T) (g : Geometry).
Variables (mode : SimilarityFunction) (flags : Flags T) (b c i j : nat).

Local Abbreviation patch := (patch_value input g flags b i j).
Local Abbreviation weighted := (term input templates weights g mode flags b c i j).
Local Abbreviation block := (offsets (dim_c input) (block_h g) (block_w g)).

(** The offsets the loop adds up: all of them, or the ones whose patch
    value is not NaN when NaN is ignored. *)
Local Abbreviation kept :=
  (List.filter (fun o => negb (ignore_nan_input flags && isnan (patch o))) block).

Lemma sum_over_pointwise {X : Type} (l : list X) (f f' : X -> T) :
  (forall x, f x = f' x) -> sum_over l f = sum_over l f'.
Proof.
  intros Hf. unfold sum_over. apply fold_left_pointwise.
  intros s x. rewrite Hf. reflexivity.
Qed.

(** After any list of offsets the running sum has gained the kept terms
    and the count has lost one per offset left out. *)
Lemma fold_accumulate (l : list (nat * nat * nat)) (s : T) (k : nat) :
  fold_left (fun acc o => accumulate input templates weights g mode flags b c i j o acc)
    l (s, k)
  = (fold_left (fun s o => add s (weighted o))
       (List.filter (fun o => negb (ignore_nan_input flags && isnan (patch o))) l) s,
     (k - length (List.filter
                    (fun o => negb (negb (ignore_nan_input flags && isnan (patch o)))) l))%nat).
Proof.
  revert s k. induction l as [|o l IH]; intros s k; cbn [fold_left List.filter].
  - cbn [length]. f_equal. lia.
  - unfold accumulate at 2.
    destruct (ignore_nan_input flags && isnan (patch o)); cbn [negb fst snd].
    + rewrite IH. cbn [length]. f_equal. lia.
    + rewrite IH. cbn [fold_left]. reflexivity.
Qed.

(** The loops in closed form: the sum of the kept terms, and their number. *)
Lemma accumulated_closed :
  accumulated input templates weights g mode flags b c i j
  = (sum_over kept weighted, length kept).
Proof.
  unfold accumulated.
  rewrite (nested_loops _ _ _
             (fun o acc => accumulate input templates weights g mode flags b c i j o acc)).
  rewrite fold_accumulate. unfold sum_over. f_equal.
  rewrite <- length_offsets.
  rewrite (length_filter_split
             (fun o => negb (ignore_nan_input flags && isnan (patch o))) block) at 1.
  lia.
Qed.


Lemma kept_active : ignore_nan_input flags = true -> kept = active input g flags b i j.
Proof. intros Hignore. rewrite Hignore. reflexivity. Qed.


End ForwardProperties.

(** ** Reading the output tensor *)

Lemma nth_flat_map_seq {A : Type} (f : nat -> list A) (m n a k r : nat) (d : A) :
  (forall x, length (f x) = m) ->
  (k < n)%nat -> (r < m)%nat ->
  nth (k * m + r) (flat_map f (seq a n)) d = nth r (f (a + k)%nat) d.
Proof.
  intros Hf. revert a k.
  induction n as [|n IH]; intros a k Hk Hr; [lia|].
  cbn [seq flat_map]. destruct k as [|k].
  - rewrite Nat.add_0_r. cbn [Nat.mul Nat.add].
    apply app_nth1. rewrite Hf. exact Hr.
  - rewrite app_nth2 by (rewrite Hf; lia).
    rewrite Hf. replace (S k * m + r - m)%nat with (k * m + r)%nat by lia.
    rewrite IH by lia. f_equal. f_equal. lia.
Qed.

Section OutputTensor.

Context {T : Type} `{Scalar T}.

Variables (input templates weights : Tensor4D T) (g : Geometry).
Variables (mode : SimilarityFunction) (flags : Flags T) (out_h out_w : nat).

(** Element (b, c, i, j) of the output tensor is the output element the
    kernel computes for (b, c, i, j). *)
Lemma get_forward (b c i j : nat) :
  (b < dim_n input)%nat -> (c < dim_n templates)%nat ->
  (i < out_h)%nat -> (j < out_w)%nat ->
  get (forward input templates weights g mode flags out_h out_w) b c i j
  = forward_element input templates weights g mode flags b c i j.
Proof.
  intros Hb Hc Hi Hj. unfold get, forward, offset4. cbn [dim_c dim_h dim_w data].
  set (row := fun b c i =>
         map (fun j => forward_element input templates weights g mode flags b c i j)
             (seq 0 out_w)).
  set (plane := fun b c => flat_map (row b c) (seq 0 out_h)).
  set (volume := fun b => flat_map (plane b) (seq 0 (dim_n templates))).
  assert (Hrow : forall b c i, length (row b c i) = out_w).
  { intros. unfold row. rewrite length_map, length_seq. reflexivity. }
  assert (Hplane : forall b c, length (plane b c) = (out_h * out_w)%nat).
  { intros. unfold plane. rewrite (length_flat_map_const _ out_w) by apply Hrow.
    rewrite length_seq. reflexivity. }
  assert (Hvolume : forall b, length (volume b) = (dim_n templates * (out_h * out_w))%nat).
  { intros. unfold volume. rewrite (length_flat_map_const _ (out_h * out_w)) by apply Hplane.
    rewrite length_seq. reflexivity. }
  replace (((b * dim_n templates + c) * out_h + i) * out_w + j)%nat
    with (b * (dim_n templates * (out_h * out_w)) + (c * (out_h * out_w) + (i * out_w + j)))%nat
    by lia.
  assert (Hinner : (i * out_w + j < out_h * out_w)%nat) by nia.
  assert (Hmid : (c * (out_h * out_w) + (i * out_w + j)
                  < dim_n templates * (out_h * out_w))%nat) by nia.
  change (flat_map _ (seq 0 (dim_n input))) with (flat_map volume (seq 0 (dim_n input))).
  rewrite (nth_flat_map_seq volume _ _ 0 b _ zero Hvolume Hb Hmid).
  unfold volume.
  rewrite (nth_flat_map_seq (plane (0 + b)%nat) _ _ 0 c _ zero (Hplane _) Hc Hinner).
  unfold plane.
  rewrite (nth_flat_map_seq (row (0 + b)%nat (0 + c)%nat) _ _ 0 i _ zero (Hrow _ _) Hi Hj).
  unfold row. cbn [Nat.add].
  rewrite (nth_indep _ zero (forward_element input templates weights g mode flags b c i 0))
    by (rewrite length_map, length_seq; exact Hj).
  rewrite (map_nth (fun j => forward_element input templates weights g mode flags b c i j)).
  rewrite seq_nth by exact Hj. reflexivity.
Qed.

End OutputTensor.

(** ** The forward pass *)

Section ForwardContract.

Context {T : Type} `{Scalar T}.

Variables (input templates weights : Tensor4D T) (g : Geometry).
Variables (mode : SimilarityFunction) (flags : Flags T).

Lemma nothing_ignored (b i j : nat) (l : list (nat * nat * nat)) :
  ignore_nan_input flags
  && existsb (fun o => isnan (patch_value input g flags b i j o)) l = false ->
  List.filter
    (fun o => negb (ignore_nan_input flags && isnan (patch_value input g flags b i j o))) l
  = l.
Proof.
  destruct (ignore_nan_input flags); cbn [andb negb].
  - induction l as [|o l IH]; cbn [existsb List.filter]; [reflexivity|].
    intros [Ho Hl]%orb_false_elim. rewrite Ho. cbn [negb]. f_equal. auto.
  - intros _. induction l as [|o l IH]; cbn [List.filter]; [reflexivity|]. f_equal. exact IH.
Qed.

(** C1, as the kernel has it: with the normalization term off and no NaN
    patch value being ignored (the simplest version of the operation),
    every element (b, c, i, j) of the forward output is the sum over all
    offsets (dc, di, dj) of weights[c,dc,di,dj] times the distance phi (L1
    or L2 by mode) between templates[c,dc,di,dj] and the input at row
    stride_h * i + di - pad_h and column stride_w * j + dj - pad_w, a
    coordinate outside the input giving out_of_bounds_value. *)
Theorem forward_is_weighted_distance_sum (out_h out_w b c i j : nat) :
  normalization_term flags = false ->
  ignores_some_nan input g flags b i j = false ->
  (b < dim_n input)%nat -> (c < dim_n templates)%nat ->
  (i < out_h)%nat -> (j < out_w)%nat ->
  get (forward input templates weights g mode flags out_h out_w) b c i j
  = weighted_distance_sum input templates weights g mode (out_of_bounds_value flags) b c i j.
Proof.
  intros Hnorm Hnan Hb Hc Hi Hj.
  rewrite get_forward by assumption.
  unfold forward_element. rewrite accumulated_closed, Hnorm.
  rewrite (nothing_ignored b i j _ Hnan).
  unfold weighted_distance_sum. apply sum_over_pointwise.
  intros [[dc di] dj]. reflexivity.
Qed.


(** With NaN ignored, the patch values that are NaN are the ones of the
    excluded offsets. *)
Lemma patch_nan_is_excluded (b i j : nat) (o : nat * nat * nat) :
  isnan (patch_value input g flags b i j o) = excluded input g flags b i j o.
Proof.
  destruct o as [[dc di] dj]. unfold patch_value, excluded, reads_nan_input, falls_outside.
  destruct (in_bounds input (input_row g i di) (input_col g j dj)); cbn [andb negb].
  - rewrite andb_false_r, orb_false_r. reflexivity.
  - rewrite andb_true_r. reflexivity.
Qed.

Lemma active_is_not_excluded (b i j : nat) :
  active input g flags b i j
  = List.filter (fun o => negb (excluded input g flags b i j o))
      (offsets (dim_c input) (block_h g) (block_w g)).
Proof.
  unfold active.
  induction (offsets (dim_c input) (block_h g) (block_w g)) as [|o l IH];
    cbn [List.filter]; [reflexivity|].
  rewrite patch_nan_is_excluded, IH. reflexivity.
Qed.

(** With NaN ignored, the output element is computed from the offsets that
    are not excluded, in the sum and in the count. *)
Lemma ignored_closed_form (b c i j : nat) :
  ignore_nan_input flags = true ->
  forward_element input templates weights g mode flags b c i j
  = (let kept := List.filter (fun o => negb (excluded input g flags b i j o))
                   (offsets (dim_c input) (block_h g) (block_w g)) in
     let sum := sum_over kept (term input templates weights g mode flags b c i j) in
     if normalization_term flags
     then add sum (mul (mul minus_half (of_count (length kept))) log_2pi)
     else sum).
Proof.
  intros Hignore. unfold forward_element. rewrite accumulated_closed.
  rewrite (kept_active input g flags b i j Hignore), active_is_not_excluded. reflexivity.
Qed.

End ForwardContract.

(** ** The forward pass at concrete tensors *)

(** The spec's scenario: every output element is -9. *)
Example forward_scenario :
  forward ones_input zero_templates unit_weights scenario_geometry L2 plain_flags 2 2
  = mkTensor 1 1 2 2 [(-9)%float; (-9)%float; (-9)%float; (-9)%float].
Proof. vm_compute. reflexivity. Qed.

(** C1 as stated fails where a flag is set: with the normalization term on
    the output element is not the documented sum (-9), and with NaN ignored
    the output element is -1 where the documented sum is NaN. *)
Lemma flags_change_the_output :
  (weighted_distance_sum ones_input zero_templates unit_weights scenario_geometry L2
     (out_of_bounds_value normalizing_flags) 0 0 0 0 = (-9)%float
   /\ PrimFloat.ltb
        (get (forward ones_input zero_templates unit_weights scenario_geometry L2
                normalizing_flags 2 2) 0 0 0 0)
        (-9)%float = true)
  /\ (isnan (weighted_distance_sum input_with_nan row_templates row_weights row_geometry L2
               (out_of_bounds_value ignoring_flags) 0 0 0 0) = true
      /\ get (forward input_with_nan row_templates row_weights row_geometry L2
                ignoring_flags 1 1) 0 0 0 0 = (-1)%float).
Proof. repeat split; vm_compute; reflexivity. Qed.

(** The spec's scenario with both flags off, at output element (0, 0, 1, 1). *)
Lemma forward_is_weighted_distance_sum_witness :
  normalization_term plain_flags = false
  /\ ignores_some_nan ones_input scenario_geometry plain_flags 0 1 1 = false
  /\ get (forward ones_input zero_templates unit_weights scenario_geometry L2
            plain_flags 2 2) 0 0 1 1
     = weighted_distance_sum ones_input zero_templates unit_weights scenario_geometry L2
         (out_of_bounds_value plain_flags) 0 0 1 1.
Proof.
  split; [reflexivity|]. split; [reflexivity|].
  apply (forward_is_weighted_distance_sum ones_input zero_templates unit_weights
           scenario_geometry L2 plain_flags 2 2 0 0 1 1);
    [reflexivity|reflexivity|cbn; lia|cbn; lia|lia|lia].
Defined.


(** ** Binary64: where NaN cannot come from *)

Lemma shr_1_nonneg (mrs : shr_record) : 0 <= shr_m mrs -> 0 <= shr_m (shr_1 mrs).
Proof. destruct mrs as [m r s]. destruct m as [|[p|p|]|p]; cbn; lia. Qed.

Lemma iter_shr_1_nonneg (p : positive) (mrs : shr_record) :
  0 <= shr_m mrs -> 0 <= shr_m (SpecFloat.iter_pos shr_1 p mrs).
Proof.
  revert mrs. induction p as [p IH|p IH|]; intros mrs Hm; cbn [SpecFloat.iter_pos].
  - apply IH, IH, shr_1_nonneg, Hm.
  - apply IH, IH, Hm.
  - apply shr_1_nonneg, Hm.
Qed.

Lemma shr_fexp_nonneg (m e : Z) (l : location) :
  0 <= m -> 0 <= shr_m (fst (shr_fexp prec emax m e l)).
Proof.
  intros Hm. unfold shr_fexp, shr.
  assert (H0 : 0 <= shr_m (shr_record_of_loc m l)) by (destruct l as [|[]]; exact Hm).
  destruct (_ - e) as [|p|p]; cbn [fst]; auto using iter_shr_1_nonneg.
Qed.

Lemma round_nearest_even_nonneg (m : Z) (l : location) :
  0 <= m -> 0 <= round_nearest_even m l.
Proof. intros Hm. destruct l as [|[]]; cbn; try destruct (Z.even m); lia. Qed.

(** Rounding a mantissa that is not negative gives a zero, a finite number
    or an infinity of the sign it was given, never NaN. *)
Lemma binary_round_aux_signed (sx : bool) (mx ex : Z) (lx : location) :
  0 <= mx -> SFsigned sx (binary_round_aux prec emax sx mx ex lx) = true.
Proof.
  intros Hm. unfold binary_round_aux.
  pose proof (shr_fexp_nonneg mx ex lx Hm) as H1.
  destruct (shr_fexp prec emax mx ex lx) as [mrs' e']. cbn [fst] in H1.
  pose proof (shr_fexp_nonneg _ e' loc_Exact
                (round_nearest_even_nonneg _ (loc_of_shr_record mrs') H1)) as H2.
  destruct (shr_fexp prec emax _ e' loc_Exact) as [mrs'' e'']. cbn [fst] in H2.
  destruct (shr_m mrs'') as [|m|m]; [| |lia].
  - cbn. apply eqb_reflx.
  - destruct (e'' <=? emax - prec); cbn; apply eqb_reflx.
Qed.

Lemma binary_round_signed (sx : bool) (mx : positive) (ex : Z) :
  SFsigned sx (binary_round prec emax sx mx ex) = true.
Proof.
  unfold binary_round. destruct (shl_align _ _ _) as [mz ez].
  apply binary_round_aux_signed. lia.
Qed.

Lemma SFsigned_not_nan (s : bool) (x : spec_float) : SFsigned s x = true -> SFnot_nan x = true.
Proof. destruct x; cbn; congruence. Qed.

Lemma SFsigned_nonpos (x : spec_float) : SFsigned true x = true -> SFnonpos x = true.
Proof. destruct x as [s|s| |s m e]; cbn; try destruct s; congruence. Qed.

Lemma SFnonpos_not_nan (x : spec_float) : SFnonpos x = true -> SFnot_nan x = true.
Proof. destruct x; cbn; congruence. Qed.

Lemma binary_normalize_not_nan (m e : Z) (szero : bool) :
  SFnot_nan (binary_normalize prec emax m e szero) = true.
Proof.
  destruct m as [|p|p]; cbn [binary_normalize]; [reflexivity| |];
    eapply SFsigned_not_nan, binary_round_signed.
Qed.

Lemma binary_normalize_nonneg (m e : Z) :
  0 <= m -> SFsigned false (binary_normalize prec emax m e false) = true.
Proof.
  destruct m as [|p|p]; cbn [binary_normalize]; intros Hm; [reflexivity| |lia].
  apply binary_round_signed.
Qed.

(** A difference is NaN only from NaN or from two infinities. *)
Lemma SFsub_not_nan (x t : spec_float) :
  SFnot_nan x = true -> SFfinite t = true -> SFnot_nan (SF64sub x t) = true.
Proof.
  destruct x as [sx|sx| |sx mx ex], t as [st|st| |st mt et]; cbn; try congruence;
    intros _ _; try reflexivity.
  - destruct sx, st; reflexivity.
  - apply binary_normalize_not_nan.
Qed.

Lemma SFmul_self_nonneg (d : spec_float) :
  SFnot_nan d = true -> SFsigned false (SF64mul d d) = true.
Proof.
  destruct d as [s|s| |s m e]; cbn; try congruence; intros _;
    try (destruct s; reflexivity).
  replace (xorb s s) with false by (destruct s; reflexivity).
  apply binary_round_aux_signed. lia.
Qed.

Lemma SFabs_nonneg (d : spec_float) :
  SFnot_nan d = true -> SFsigned false (SFabs d) = true.
Proof. destruct d; cbn; congruence. Qed.

Lemma SFopp_signed (s : bool) (v : spec_float) :
  SFsigned s v = true -> SFsigned (negb s) (SFopp v) = true.
Proof.
  destruct v as [s'|s'| |s' m e]; cbn; try congruence; destruct s, s'; cbn; congruence.
Qed.

(** A product with a finite factor other than zero is NaN only from NaN,
    and has the sign of the signs. *)
Lemma SFmul_finite_l (s sy : bool) (m : positive) (e : Z) (y : spec_float) :
  SFsigned sy y = true -> SFsigned (xorb s sy) (SF64mul (S754_finite s m e) y) = true.
Proof.
  destruct y as [s'|s'| |s' m' e']; cbn; try congruence;
    intros <-%eqb_prop; try apply eqb_reflx.
  apply binary_round_aux_signed. lia.
Qed.

Lemma SFmul_finite_r (sx s : bool) (m : positive) (e : Z) (x : spec_float) :
  SFsigned sx x = true -> SFsigned (xorb sx s) (SF64mul x (S754_finite s m e)) = true.
Proof.
  destruct x as [s'|s'| |s' m' e']; cbn; try congruence;
    intros <-%eqb_prop; try apply eqb_reflx.
  apply binary_round_aux_signed. lia.
Qed.

(** A sum of two numbers that are not above zero is not above zero. *)
Lemma SFadd_nonpos (a b : spec_float) :
  SFnonpos a = true -> SFnonpos b = true -> SFnonpos (SF64add a b) = true.
Proof.
  destruct a as [sa|sa| |sa ma ea], b as [sb|sb| |sb mb eb]; cbn; try congruence;
    intros Ha Hb; subst; try reflexivity.
  - destruct sa, sb; reflexivity.
  - apply SFsigned_nonpos. cbn. apply binary_round_signed.
Qed.

Lemma is_nan_Prim2SF (f : float) : PrimFloat.is_nan f = negb (SFnot_nan (Prim2SF f)).
Proof.
  unfold Prim2SF. destruct (PrimFloat.is_nan f); [reflexivity|].
  destruct (is_zero f); [reflexivity|]. destruct (is_infinity f); [reflexivity|].
  destruct (FloatOps.Z.frexp f) as [r exp].
  destruct (shr_fexp prec emax _ _ loc_Exact) as [mrs e'].
  destruct (shr_m mrs); reflexivity.
Qed.

Lemma positive64_spec (w : float) :
  positive64 w = true -> exists m e, Prim2SF w = S754_finite false m e.
Proof.
  unfold positive64. rewrite classify_spec. unfold SF64classify, SFclassify.
  destruct (Prim2SF w) as [[]|[]| |[] m e]; try discriminate;
    try (destruct (Z.pos (digits2_pos m) =? prec); discriminate).
  eauto.
Qed.

Lemma finite64_spec (t : float) : finite64 t = true -> SFfinite (Prim2SF t) = true.
Proof.
  unfold finite64. rewrite classify_spec. unfold SF64classify, SFclassify.
  destruct (Prim2SF t) as [[]|[]| |[] m e]; try discriminate; reflexivity.
Qed.

(** The count of a block, converted, is a number that is not negative. *)
Lemma of_count_nonneg (n : nat) : SFsigned false (Prim2SF (of_count n)) = true.
Proof.
  cbn [of_count float64]. rewrite of_uint63_spec.
  apply binary_normalize_nonneg, Uint63.to_Z_bounded.
Qed.

(** The normalization term is never above zero, and never NaN. *)
Lemma normalization_nonpos (K : nat) :
  SFnonpos (Prim2SF (mul (mul minus_half (of_count K)) log_2pi)) = true.
Proof.
  cbn [mul minus_half log_2pi float64]. rewrite !mul_spec.
  change (Prim2SF (-0.5)%float) with (S754_finite true 4503599627370496 (-53)).
  change (Prim2SF 0x1.d67f1c864beb4p+0%float)
    with (S754_finite false 8277062471433908 (-52)).
  apply SFsigned_nonpos.
  apply (SFmul_finite_r true false), (SFmul_finite_l true false), of_count_nonneg.
Qed.

(** The weighted distance of a patch value that is not NaN to a finite
    template, under a finite weight above zero, is never above zero. *)
Lemma weighted_distance_nonpos (mode : SimilarityFunction) (w x t : float) :
  positive64 w = true -> finite64 t = true -> isnan x = false ->
  SFnonpos (Prim2SF (mul w (phi mode x t))) = true.
Proof.
  intros (m & e & Hw)%positive64_spec Ht%finite64_spec Hx.
  cbn [isnan float64] in Hx. rewrite is_nan_Prim2SF in Hx. apply negb_false_iff in Hx.
  pose proof (SFsub_not_nan _ _ Hx Ht) as Hd.
  apply SFsigned_nonpos.
  destruct mode; cbn [phi mul opp absolute sub float64].
  - rewrite mul_spec, opp_spec, abs_spec, sub_spec, Hw.
    apply (SFmul_finite_l false true), (SFopp_signed false), SFabs_nonneg, Hd.
  - rewrite mul_spec, opp_spec, mul_spec, sub_spec, Hw.
    apply (SFmul_finite_l false true), (SFopp_signed false), SFmul_self_nonneg, Hd.
Qed.

Lemma sum_over_nonpos {X : Type} (l : list X) (f : X -> float) :
  (forall x, In x l -> SFnonpos (Prim2SF (f x)) = true) ->
  SFnonpos (Prim2SF (sum_over l f)) = true.
Proof.
  unfold sum_over.
  assert (H0 : SFnonpos (Prim2SF (zero (T := float))) = true) by reflexivity.
  revert H0. generalize (zero (T := float)).
  induction l as [|x l IH]; intros s Hs Hf; cbn [fold_left]; [exact Hs|].
  apply IH.
  - cbn [add float64]. rewrite add_spec. apply SFadd_nonpos; [exact Hs|].
    apply Hf. left. reflexivity.
  - intros y Hy. apply Hf. right. exact Hy.
Qed.

(** C8, as the kernel has it: with NaN ignored, every output element is
    the one computed from exactly the offsets that are not excluded, in the
    sum and in the count K of the normalization term, the excluded offsets
    being the ones that read a NaN of the input and, when
    out_of_bounds_value is NaN, the ones outside the input; and in binary64
    the output element is not NaN when the weights of the block are finite
    and above zero and its templates are finite. *)
Theorem nan_input_ignored (input templates weights : Tensor4D float) (g : Geometry)
    (mode : SimilarityFunction) (flags : Flags float) (b c i j : nat) :
  ignore_nan_input flags = true ->
  forward_element input templates weights g mode flags b c i j
  = (let kept := List.filter (fun o => negb (excluded input g flags b i j o))
                   (offsets (dim_c input) (block_h g) (block_w g)) in
     let sum := sum_over kept (term input templates weights g mode flags b c i j) in
     if normalization_term flags
     then add sum (mul (mul minus_half (of_count (length kept))) log_2pi)
     else sum)
  /\ (parameters_sound templates weights (dim_c input) g c = true ->
      isnan (forward_element input templates weights g mode flags b c i j) = false).
Proof.
  intros Hignore.
  pose proof (ignored_closed_form input templates weights g mode flags b c i j Hignore)
    as Hclosed.
  split; [exact Hclosed|].
  intros Hparams. rewrite Hclosed. cbv zeta.
  set (kept := List.filter _ _).
  assert (Hsum : SFnonpos (Prim2SF (sum_over kept
                    (term input templates weights g mode flags b c i j))) = true).
  { apply sum_over_nonpos. intros [[dc di] dj] Hin.
    apply filter_In in Hin as [Hblock Hkept].
    unfold parameters_sound in Hparams. rewrite forallb_forall in Hparams.
    specialize (Hparams _ Hblock). cbn beta iota in Hparams.
    apply andb_prop in Hparams as [Hw Ht].
    rewrite <- patch_nan_is_excluded in Hkept. apply negb_true_iff in Hkept.
    unfold term. apply weighted_distance_nonpos; assumption. }
  cbn [isnan float64]. rewrite is_nan_Prim2SF. apply negb_false_iff.
  apply SFnonpos_not_nan.
  destruct (normalization_term flags); [|exact Hsum].
  cbn [add float64]. rewrite add_spec.
  apply SFadd_nonpos; [exact Hsum|apply normalization_nonpos].
Qed.

(** C8 as stated fails. With NaN ignored the output element is NaN though
    a covered position is not NaN: when an infinite input meets an infinite
    template; when a template is NaN under an input without NaN; and on
    data that are all finite, when a weight of 0 meets a squared difference
    that overflows. And the positions left out are not only the NaN of the
    input: with NaN as out_of_bounds_value the padding is left out too, so
    that on an input without NaN the output (-2) is not the one computed
    with nothing left out (NaN). *)
Lemma nan_output_without_all_nan_input :
  (isnan (forward_element input_with_infinity templates_with_infinity row_weights
            row_geometry L2 ignoring_flags 0 0 0 0) = true
   /\ active input_with_infinity row_geometry ignoring_flags 0 0 0 = [(0, 0, 1)%nat])
  /\ (isnan (forward_element clean_input templates_with_nan row_weights
               row_geometry L2 ignoring_flags 0 0 0 0) = true
      /\ active clean_input row_geometry ignoring_flags 0 0 0
         = [(0, 0, 0)%nat; (0, 0, 1)%nat])
  /\ (isnan (forward_element huge_input row_templates weights_with_zero
               row_geometry L2 ignoring_flags 0 0 0 0) = true
      /\ forallb finite64 (data huge_input ++ data row_templates ++ data weights_with_zero)
         = true)
  /\ (existsb isnan (data clean_input) = false
      /\ active clean_input padded_geometry nan_outside_flags 0 0 0
         = [(0, 0, 1)%nat; (0, 0, 2)%nat]
      /\ forward_element clean_input wide_templates wide_weights padded_geometry L2
           nan_outside_flags 0 0 0 0 = (-2)%float
      /\ isnan (forward_element clean_input wide_templates wide_weights padded_geometry L2
                  nan_outside_kept_flags 0 0 0 0) = true).
Proof. repeat split; vm_compute; reflexivity. Qed.

(** A row whose first element is NaN, under weights of 1 and templates of
    0 with the normalization term on: the output element is not NaN. *)
Lemma nan_input_ignored_witness :
  ignore_nan_input ignoring_normalizing_flags = true
  /\ parameters_sound row_templates row_weights 1 row_geometry 0 = true
  /\ active input_with_nan row_geometry ignoring_normalizing_flags 0 0 0 = [(0, 0, 1)%nat]
  /\ isnan (forward_element input_with_nan row_templates row_weights row_geometry L2
              ignoring_normalizing_flags 0 0 0 0) = false.
Proof.
  split; [reflexivity|]. split; [vm_compute; reflexivity|].
  split; [vm_compute; reflexivity|].
  apply (nan_input_ignored input_with_nan row_templates row_weights row_geometry L2
           ignoring_normalizing_flags 0 0 0 0); [reflexivity|vm_compute; reflexivity].
Defined.

(** ** The gradient operations at concrete nodes *)

(** A batch of 7 with 5x6 inputs: the gradients have the shapes of the
    templates and of the weights. *)
Lemma parameters_grad_shapes_witness :
  exists c',
    shape_fn SimilarityParametersGrad
      (context_of SimilarityParametersGrad
         [MakeShape [7; 3; 5; 6]; MakeShape [4; 3; 3; 3]; MakeShape [4; 3; 3; 3];
          MakeShape [7; 4; 2; 2]]
         (node_attrs [3; 3] [2; 2] [0; 0]))
    = Returns tt c'
    /\ outputs c' !! 0%nat = Some (Some (MakeShape [4; 3; 3; 3]))
    /\ outputs c' !! 1%nat = Some (Some (MakeShape [4; 3; 3; 3]))
    /\ inputs c' = [MakeShape [7; 3; 5; 6]; MakeShape [4; 3; 3; 3]; MakeShape [4; 3; 3; 3];
                    MakeShape [7; 4; 2; 2]]
    /\ attrs c' = node_attrs [3; 3] [2; 2] [0; 0].
Proof.
  apply (parameters_grad_shapes
           (context_of SimilarityParametersGrad
              [MakeShape [7; 3; 5; 6]; MakeShape [4; 3; 3; 3]; MakeShape [4; 3; 3; 3];
               MakeShape [7; 4; 2; 2]]
              (node_attrs [3; 3] [2; 2] [0; 0])));
    [reflexivity|reflexivity|cbn; lia].
Defined.

(** The same node for the input gradient: the output has the shape of the
    input. *)
Lemma input_grad_shape_witness :
  exists c',
    shape_fn SimilarityInputGrad
      (context_of SimilarityInputGrad
         [MakeShape [7; 3; 5; 6]; MakeShape [4; 3; 3; 3]; MakeShape [4; 3; 3; 3];
          MakeShape [7; 4; 2; 2]]
         (node_attrs [3; 3] [2; 2] [0; 0]))
    = Returns tt c'
    /\ outputs c' !! 0%nat = Some (Some (MakeShape [7; 3; 5; 6]))
    /\ inputs c' = [MakeShape [7; 3; 5; 6]; MakeShape [4; 3; 3; 3]; MakeShape [4; 3; 3; 3];
                    MakeShape [7; 4; 2; 2]]
    /\ attrs c' = node_attrs [3; 3] [2; 2] [0; 0].
Proof.
  apply (input_grad_shape
           (context_of SimilarityInputGrad
              [MakeShape [7; 3; 5; 6]; MakeShape [4; 3; 3; 3]; MakeShape [4; 3; 3; 3];
               MakeShape [7; 4; 2; 2]]
              (node_attrs [3; 3] [2; 2] [0; 0])));
    [reflexivity|cbn; lia].
Defined.

(** * Further properties of the shape functions *)

(** Cases on the innermost test of the run in the goal. *)
Ltac run_step :=
  match goal with
  | |- context [match ?e with _ => _ end] =>
      lazymatch e with
      | context [match _ with _ => _ end] => fail
      | _ => destruct e eqn:?
      end
  end.

Ltac unfold_run :=
  unfold SimilarityShape, bind, input, defined, GetAttr, TF_RETURN_IF_ERROR,
    return_InvalidArgument, set_output, ret.

(** ** What a run leaves alone *)

(** X4. Whatever the node and the helper, a run of the shape function of
    Similarity that returns an error leaves the context as it was, and a
    run that returns OK has changed output slot 0 and nothing else: the
    inputs, the attributes, the number of output slots and every other slot
    are as before. *)
Theorem shape_check_frame
    (helper : DimensionHandle -> DimensionHandle -> Z -> Z -> bool -> StatusOr DimensionHandle)
    (c : InferenceContext) :
  match SimilarityShape helper c with
  | Returns _ c' =>
      inputs c' = inputs c
      /\ attrs c' = attrs c
      /\ length (outputs c') = length (outputs c)
      /\ is_Some (default None (outputs c' !! 0%nat))
      /\ forall k : nat, k <> 0%nat -> outputs c' !! k = outputs c !! k
  | Fails _ _ c' => c' = c
  | Undefined => True
  end.
Proof.
  unfold_run.
  repeat (run_step; cbv beta iota; try exact I; try reflexivity).
  cbn [inputs attrs outputs]. repeat split.
  - apply length_insert.
  - rewrite list_lookup_insert_eq by assumption. cbn. eauto.
  - intros k Hk. apply list_lookup_insert_ne. congruence.
Qed.

(** ** What a run depends on *)

Lemma same_reading_refl (n : nat) (r : StatusOr (list Z)) : same_reading n r r.
Proof. destruct r; cbn; auto. Qed.

(** The verdict depends on the first two inputs through [WithRank], on the
    strides, on whether blocks can be read, on the first two entries of the
    padding, and on the number of output slots. *)
Lemma SimilarityShape_verdict_congruence
    (helper : DimensionHandle -> DimensionHandle -> Z -> Z -> bool -> StatusOr DimensionHandle)
    (c1 c2 : InferenceContext) :
  (fun s => WithRank s 4) <$> inputs c1 !! 0%nat = (fun s => WithRank s 4) <$> inputs c2 !! 0%nat ->
  (fun s => WithRank s 4) <$> inputs c1 !! 1%nat = (fun s => WithRank s 4) <$> inputs c2 !! 1%nat ->
  GetAttr_int32s "strides" c1 = GetAttr_int32s "strides" c2 ->
  same_reading 0 (GetAttr_int32s "blocks" c1) (GetAttr_int32s "blocks" c2) ->
  same_reading 2 (GetAttr_int32s "padding" c1) (GetAttr_int32s "padding" c2) ->
  length (outputs c1) = length (outputs c2) ->
  verdict (SimilarityShape helper c1) = verdict (SimilarityShape helper c2).
Proof.
  intros H0 H1 Hs Hb Hp Ho. unfold_run.
  destruct (inputs c1 !! 0%nat) as [i1|], (inputs c2 !! 0%nat) as [i2|];
    cbn [fmap option_fmap option_map] in H0; try discriminate; [|reflexivity].
  injection H0 as H0. rewrite H0.
  destruct (WithRank i2 4) as [input_shape|]; [|reflexivity].
  destruct (inputs c1 !! 1%nat) as [t1|], (inputs c2 !! 1%nat) as [t2|];
    cbn [fmap option_fmap option_map] in H1; try discriminate; [|reflexivity].
  injection H1 as H1. rewrite H1.
  destruct (WithRank t2 4) as [template_shape|]; [|reflexivity].
  rewrite Hs. destruct (GetAttr_int32s "strides" c2) as [strides|]; [|reflexivity].
  destruct (GetAttr_int32s "blocks" c1), (GetAttr_int32s "blocks" c2);
    cbn in Hb; try contradiction; [|destruct Hb as [-> ->]; reflexivity].
  destruct (GetAttr_int32s "padding" c1) as [pad1|], (GetAttr_int32s "padding" c2) as [pad2|];
    cbn in Hp; try contradiction; [|destruct Hp as [-> ->]; reflexivity].
  rewrite (Hp 0%nat), (Hp 1%nat) by lia.
  repeat (run_step; cbv beta iota; try reflexivity); try (exfalso; lia).
  cbn [verdict outputs]. rewrite !list_lookup_insert_eq by lia. reflexivity.
Qed.

(** X5. The shape function of Similarity never looks past its second
    input: whatever stands for the weights (any rank, any extents, or no
    shape at all), the verdict is the same. *)
Theorem weights_shape_never_read
    (helper : DimensionHandle -> DimensionHandle -> Z -> Z -> bool -> StatusOr DimensionHandle)
    (input_shape template_shape : ShapeHandle) (others others' : list ShapeHandle)
    (node : gmap string AttrValue) (slots : list (option ShapeHandle)) :
  verdict (SimilarityShape helper
             (mkContext (input_shape :: template_shape :: others) node slots))
  = verdict (SimilarityShape helper
               (mkContext (input_shape :: template_shape :: others') node slots)).
Proof.
  apply SimilarityShape_verdict_congruence; try reflexivity; apply same_reading_refl.
Qed.

(** X6. An input or a templates tensor of unknown rank is taken for a
    rank-4 shape of four unknown dimensions: the verdict is the same. *)
Theorem unknown_rank_is_four_unknown_dims
    (helper : DimensionHandle -> DimensionHandle -> Z -> Z -> bool -> StatusOr DimensionHandle)
    (other : ShapeHandle) (others : list ShapeHandle)
    (node : gmap string AttrValue) (slots : list (option ShapeHandle)) :
  let unknown4 := MakeShape [kUnknownDim; kUnknownDim; kUnknownDim; kUnknownDim] in
  verdict (SimilarityShape helper (mkContext (UnknownShape :: other :: others) node slots))
  = verdict (SimilarityShape helper (mkContext (unknown4 :: other :: others) node slots))
  /\ verdict (SimilarityShape helper (mkContext (other :: UnknownShape :: others) node slots))
     = verdict (SimilarityShape helper (mkContext (other :: unknown4 :: others) node slots)).
Proof.
  split; apply SimilarityShape_verdict_congruence; try reflexivity; apply same_reading_refl.
Qed.

Lemma GetAttr_int32s_fits (name : string) (c : InferenceContext) (l : list Z) :
  GetAttr_int32s name c = Value l -> List.find (fun v => negb (fits_int32 v)) l = None.
Proof.
  unfold GetAttr_int32s. destruct (attrs c !! name) as [[]|]; try discriminate.
  destruct (List.find _ l0) eqn:Hfind; [discriminate|]. intros [= <-]. exact Hfind.
Qed.

(** X7. The padding list has no upper arity check: of a list of more than
    2 entries only the first two are used, and the verdict is the one of
    the node whose padding holds just these two. *)
Theorem padding_beyond_two_ignored
    (helper : DimensionHandle -> DimensionHandle -> Z -> Z -> bool -> StatusOr DimensionHandle)
    (c : InferenceContext) (padding_0 padding_1 : Z) (more : list Z) :
  GetAttr_int32s "padding" c = Value (padding_0 :: padding_1 :: more) ->
  verdict (SimilarityShape helper c)
  = verdict (SimilarityShape helper (with_padding c [padding_0; padding_1])).
Proof.
  intros Hp.
  assert (Hother : forall name, name <> "padding" ->
            GetAttr_int32s name (with_padding c [padding_0; padding_1]) = GetAttr_int32s name c).
  { intros name Hne. unfold GetAttr_int32s, with_padding. cbn [attrs].
    rewrite lookup_insert_ne by congruence. reflexivity. }
  apply SimilarityShape_verdict_congruence; try reflexivity.
  - rewrite Hother by discriminate. reflexivity.
  - rewrite Hother by discriminate. apply same_reading_refl.
  - rewrite Hp. apply GetAttr_int32s_fits in Hp.
    unfold GetAttr_int32s, with_padding. cbn [attrs]. rewrite lookup_insert_eq.
    cbn [List.find] in Hp |- *.
    destruct (negb (fits_int32 padding_0)); [discriminate|].
    destruct (negb (fits_int32 padding_1)); [discriminate|].
    cbn. intros [|[|k]] Hk; try reflexivity. lia.
Qed.

(** ** The order of the checks *)

(** X1. The ranks are checked before any attribute is read: on a node
    whose input or templates have a known rank other than 4 the shape
    function returns InvalidArgument with the rank message of the first of
    the two at fault, whatever the attributes hold, readable or not. *)
Theorem rank_checks_come_first
    (helper : DimensionHandle -> DimensionHandle -> Z -> Z -> bool -> StatusOr DimensionHandle)
    (c : InferenceContext) (input_shape template_shape : ShapeHandle) :
  inputs c !! 0%nat = Some input_shape ->
  inputs c !! 1%nat = Some template_shape ->
  rank_is_not_4 input_shape || rank_is_not_4 template_shape = true ->
  SimilarityShape helper c
  = Fails INVALID_ARGUMENT
      ("Shape must be rank 4 but is rank "
         +:+ pretty (Rank (if rank_is_not_4 input_shape then input_shape else template_shape)))
      c.
Proof.
  intros Hi Ht Hrank. unfold_run.
  rewrite Hi, WithRank_4.
  destruct (rank_is_not_4 input_shape); [reflexivity|].
  cbv beta iota. rewrite Ht, WithRank_4.
  destruct (rank_is_not_4 template_shape); [reflexivity|discriminate].
Qed.

(** X2. Once the ranks have passed and the three lists have been read, a
    strides list that does not hold exactly 2 values is refused with
    InvalidArgument and a message that ends in the number of values found;
    this comes before the in-channel merge and before the padding is
    indexed, so it holds for every padding list, the empty one too. *)
Theorem strides_arity_reported
    (helper : DimensionHandle -> DimensionHandle -> Z -> Z -> bool -> StatusOr DimensionHandle)
    (c : InferenceContext) (input_shape template_shape : ShapeHandle)
    (strides blocks padding : list Z) :
  inputs c !! 0%nat = Some input_shape ->
  inputs c !! 1%nat = Some template_shape ->
  rank_is_not_4 input_shape = false ->
  rank_is_not_4 template_shape = false ->
  GetAttr_int32s "strides" c = Value strides ->
  GetAttr_int32s "blocks" c = Value blocks ->
  GetAttr_int32s "padding" c = Value padding ->
  length strides <> 2%nat ->
  SimilarityShape helper c
  = Fails INVALID_ARGUMENT
      ("Similarity requires the stride attribute to contain 2 values, but got: "
         +:+ pretty (length strides))
      c.
Proof.
  intros Hi Ht Hri Hrt Hs Hb Hp Hlen.
  rewrite (SimilarityShape_run helper c _ _ _ _ _ Hi Ht Hs Hb Hp), Hri, Hrt.
  destruct (Nat.eqb_spec (length strides) 2) as [Heq|_]; [contradiction|].
  reflexivity.
Qed.

(** X3. The blocks attribute is not used but has to be readable: once the
    ranks have passed and strides has been read, a blocks attribute that
    cannot be read as a list of [int32] makes the shape function return
    the error of the read. *)
Theorem unreadable_blocks_refused
    (helper : DimensionHandle -> DimensionHandle -> Z -> Z -> bool -> StatusOr DimensionHandle)
    (c : InferenceContext) (input_shape template_shape : ShapeHandle)
    (strides : list Z) (code : Code) (msg : string) :
  inputs c !! 0%nat = Some input_shape ->
  inputs c !! 1%nat = Some template_shape ->
  rank_is_not_4 input_shape = false ->
  rank_is_not_4 template_shape = false ->
  GetAttr_int32s "strides" c = Value strides ->
  GetAttr_int32s "blocks" c = NotOK code msg ->
  SimilarityShape helper c = Fails code msg c.
Proof.
  intros Hi Ht Hri Hrt Hs Hb. unfold_run.
  rewrite Hi, WithRank_4, Hri. cbv beta iota.
  rewrite Ht, WithRank_4, Hrt. cbv beta iota.
  rewrite Hs, Hb. reflexivity.
Qed.

(** ** The forward check against the gradient operations *)

(** X8. The input-gradient operation checks nothing of what the forward
    operation checks: on every context with an output slot on which the
    shape function of Similarity returns an error, the shape function of
    SimilarityInputGrad returns OK, with the shape of the first input as
    it stands in output 0. *)
Theorem input_grad_accepts_what_forward_refuses
    (helper : DimensionHandle -> DimensionHandle -> Z -> Z -> bool -> StatusOr DimensionHandle)
    (c c' : InferenceContext) (code : Code) (msg : string) :
  shape_fn (Similarity helper) c = Fails code msg c' ->
  (0 < length (outputs c))%nat ->
  exists (input_shape : ShapeHandle) (c'' : InferenceContext),
    inputs c !! 0%nat = Some input_shape
    /\ shape_fn SimilarityInputGrad c = Returns tt c''
    /\ outputs c'' !! 0%nat = Some (Some input_shape).
Proof.
  cbn [Similarity SimilarityInputGrad shape_fn]. intros Hrun Hout.
  destruct (inputs c !! 0%nat) as [input_shape|] eqn:Hi.
  - exists input_shape. unfold UnchangedShape, bind, input, defined, set_output.
    rewrite Hi. destruct (decide (0 < length (outputs c))%nat) as [_|Hno]; [|lia].
    eexists. repeat split. cbn [outputs]. apply list_lookup_insert_eq. exact Hout.
  - revert Hrun. unfold_run. rewrite Hi. discriminate.
Qed.

(** X10. The shape function of SimilarityParametersGrad validates
    nothing: it never returns an error, and it returns OK exactly on the
    contexts that have at least 3 inputs and 2 output slots (on the others
    it indexes a vector out of range). *)
Theorem parameters_grad_never_refuses (c : InferenceContext) :
  (forall code msg c', SimilarityParametersGradShape c <> Fails code msg c')
  /\ ((exists c', SimilarityParametersGradShape c = Returns tt c')
      <-> (3 <= length (inputs c))%nat /\ (2 <= length (outputs c))%nat).
Proof.
  unfold SimilarityParametersGradShape, bind, input, defined, set_output, ret.
  destruct (inputs c !! 1%nat) as [t|] eqn:Ht; cbv beta iota.
  - destruct (decide (0 < length (outputs c))%nat) as [H0|H0]; cbv beta iota.
    + cbn [inputs outputs].
      destruct (inputs c !! 2%nat) as [w|] eqn:Hw; cbv beta iota.
      * apply lookup_lt_Some in Hw. cbn [inputs outputs]. rewrite length_insert.
        destruct (decide (1 < length (outputs c))%nat) as [H1|H1]; cbv beta iota.
        -- split; [discriminate|]. split; [lia|eauto].
        -- split; [discriminate|]. split; [intros [? ?]; discriminate|lia].
      * apply lookup_ge_None in Hw.
        split; [discriminate|]. split; [intros [? ?]; discriminate|lia].
    + split; [discriminate|]. split; [intros [? ?]; discriminate|lia].
  - apply lookup_ge_None in Ht.
    split; [discriminate|]. split; [intros [? ?]; discriminate|lia].
Qed.

(** ** The registrations *)

(** X12. The four registrations (Similarity, SimilarityRef,
    SimilarityInputGrad, SimilarityParametersGrad) declare the same nine
    attributes, in the same order and with the same types and defaults; the
    defaults of blocks, strides and padding hold 2 values each; the
    reference operation takes the inputs of Similarity, and the two
    gradient operations take them with the gradient as a fourth. *)
Theorem registrations_share_attributes
    (helper : DimensionHandle -> DimensionHandle -> Z -> Z -> bool -> StatusOr DimensionHandle) :
  attr (SimilarityRef helper) = attr (Similarity helper)
  /\ attr SimilarityInputGrad = attr (Similarity helper)
  /\ attr SimilarityParametersGrad = attr (Similarity helper)
  /\ map attr_name (attr (Similarity helper))
     = ["T"; "similarity_function"; "blocks"; "strides"; "padding"; "normalization_term";
        "normalization_term_fudge"; "ignore_nan_input"; "out_of_bounds_value"]
  /\ Forall (fun name => length (default_int_list (Similarity helper) name) = 2%nat)
       ["blocks"; "strides"; "padding"]
  /\ input_arg (SimilarityRef helper) = input_arg (Similarity helper)
  /\ firstn 3 (input_arg SimilarityInputGrad) = input_arg (Similarity helper)
  /\ firstn 3 (input_arg SimilarityParametersGrad) = input_arg (Similarity helper)
  /\ length (input_arg SimilarityInputGrad) = 4%nat
  /\ length (input_arg SimilarityParametersGrad) = 4%nat.
Proof. repeat split; repeat constructor. Qed.

(** X9. A node that keeps the registered defaults of strides and padding
    passes the arity check and never indexes padding out of range: with
    its two first inputs and an output slot, the run is defined, and an
    error can only be a rank other than 4, in-channel dimensions that do
    not merge, or the helper's own error at stride 2 and padding 0. *)
Theorem default_attributes_are_safe
    (helper : DimensionHandle -> DimensionHandle -> Z -> Z -> bool -> StatusOr DimensionHandle)
    (input_shape template_shape : ShapeHandle) (others : list ShapeHandle)
    (slots : list (option ShapeHandle)) :
  slots <> [] ->
  let c := mkContext (input_shape :: template_shape :: others)
             (default_node_attrs (Similarity helper)) slots in
  SimilarityShape helper c <> Undefined
  /\ forall code msg c',
       SimilarityShape helper c = Fails code msg c' ->
       rank_is_not_4 input_shape = true
       \/ rank_is_not_4 template_shape = true
       \/ dims_conflict (dim_at input_shape 1) (dim_at template_shape 1) = true
       \/ helper (dim_at input_shape 2) (dim_at template_shape 2) 2 0 true = NotOK code msg
       \/ helper (dim_at input_shape 3) (dim_at template_shape 3) 2 0 true = NotOK code msg.
Proof.
  intros Hslots c.
  destruct (node_attrs_readable [3; 3] [2; 2] [0; 0]
              (input_shape :: template_shape :: others) slots eq_refl eq_refl eq_refl)
    as (Hs & Hb & Hp).
  rewrite (SimilarityShape_run helper c input_shape template_shape [2; 2] [3; 3] [0; 0]
             eq_refl eq_refl Hs Hb Hp).
  destruct (rank_is_not_4 input_shape); [split; [discriminate|auto]|].
  destruct (rank_is_not_4 template_shape); [split; [discriminate|auto]|].
  cbn [length Nat.eqb negb].
  destruct (dims_conflict _ _); [split; [discriminate|auto 6]|].
  cbn [lookup list_lookup nth].
  destruct (helper _ _ 2 0 true) as [rows|code0 msg0];
    [|split; [discriminate|intros ? ? ? [= <- <- _]; auto 6]].
  destruct (helper _ _ 2 0 true) as [cols|code1 msg1];
    [|split; [discriminate|intros ? ? ? [= <- <- _]; auto 8]].
  destruct (decide (0 < length (outputs c))%nat) as [_|Hno].
  - split; discriminate.
  - exfalso. apply Hno. subst c. cbn [outputs]. destruct slots; [contradiction|cbn; lia].
Qed.

(** ** Rows against columns *)

Lemma transpose_hw_dims (s : ShapeHandle) :
  rank_is_not_4 s = false ->
  rank_is_not_4 (transpose_hw s) = false
  /\ dim_at (transpose_hw s) 0 = dim_at s 0
  /\ dim_at (transpose_hw s) 1 = dim_at s 1
  /\ dim_at (transpose_hw s) 2 = dim_at s 3
  /\ dim_at (transpose_hw s) 3 = dim_at s 2.
Proof.
  destruct s as [|[|n [|ch [|h [|w [|x l]]]]]]; cbn [transpose_hw];
    try (intros _; repeat split; fail); try discriminate.
  unfold rank_is_not_4, kUnknownRank.
  assert (Hr : Rank (MakeShape (n :: ch :: h :: w :: x :: l)) = 5 + Z.of_nat (length l)).
  { cbn [Rank length]. lia. }
  rewrite Hr.
  destruct (Z.eqb_spec (5 + Z.of_nat (length l)) 4); [lia|].
  destruct (Z.eqb_spec (5 + Z.of_nat (length l)) (-1)); [lia|discriminate].
Qed.

(** X11. Rows and columns are treated alike: index 0 of strides and of
    padding goes with dimension 2, index 1 with dimension 3. If a node is
    given the shape [n, d, r, k], the node with the spatial dimensions of
    input and templates exchanged and the two strides and the two paddings
    exchanged is given [n, d, k, r]. *)
Theorem rows_and_columns_alike
    (helper : DimensionHandle -> DimensionHandle -> Z -> Z -> bool -> StatusOr DimensionHandle)
    (input_shape template_shape : ShapeHandle) (others : list ShapeHandle)
    (blocks : list Z) (stride_0 stride_1 padding_0 padding_1 : Z)
    (slots : list (option ShapeHandle)) (c' : InferenceContext) :
  forallb fits_int32 (blocks ++ [stride_0; stride_1; padding_0; padding_1]) = true ->
  SimilarityShape helper
    (mkContext (input_shape :: template_shape :: others)
       (node_attrs blocks [stride_0; stride_1] [padding_0; padding_1]) slots)
  = Returns tt c' ->
  exists n d r k : DimensionHandle,
    outputs c' !! 0%nat = Some (Some (MakeShape [n; d; r; k]))
    /\ verdict
         (SimilarityShape helper
            (mkContext (transpose_hw input_shape :: transpose_hw template_shape :: others)
               (node_attrs blocks [stride_1; stride_0] [padding_1; padding_0]) slots))
       = Inferred (Some (MakeShape [n; d; k; r])).
Proof.
  rewrite forallb_app. intros [Hfb Hf]%andb_prop. cbn [forallb] in Hf.
  apply andb_prop in Hf as [Hs0 Hf]. apply andb_prop in Hf as [Hs1 Hf].
  apply andb_prop in Hf as [Hp0 Hf]. apply andb_prop in Hf as [Hp1 _].
  destruct (node_attrs_readable blocks [stride_0; stride_1] [padding_0; padding_1]
              (input_shape :: template_shape :: others) slots)
    as (Hs & Hb & Hp); cbn [forallb]; try (rewrite ?Hs0, ?Hs1, ?Hp0, ?Hp1; auto; fail).
  destruct (node_attrs_readable blocks [stride_1; stride_0] [padding_1; padding_0]
              (transpose_hw input_shape :: transpose_hw template_shape :: others) slots)
    as (Hs' & Hb' & Hp'); cbn [forallb]; try (rewrite ?Hs0, ?Hs1, ?Hp0, ?Hp1; auto; fail).
  rewrite (SimilarityShape_run helper
             (mkContext (input_shape :: template_shape :: others)
                (node_attrs blocks [stride_0; stride_1] [padding_0; padding_1]) slots)
             input_shape template_shape _ _ _ eq_refl eq_refl Hs Hb Hp).
  rewrite (SimilarityShape_run helper
             (mkContext (transpose_hw input_shape :: transpose_hw template_shape :: others)
                (node_attrs blocks [stride_1; stride_0] [padding_1; padding_0]) slots)
             (transpose_hw input_shape) (transpose_hw template_shape) _ _ _
             eq_refl eq_refl Hs' Hb' Hp').
  destruct (rank_is_not_4 input_shape) eqn:Hri; [discriminate|].
  destruct (rank_is_not_4 template_shape) eqn:Hrt; [discriminate|].
  destruct (transpose_hw_dims _ Hri) as (-> & -> & -> & -> & ->).
  destruct (transpose_hw_dims _ Hrt) as (-> & -> & -> & -> & ->).
  cbn [length Nat.eqb negb].
  destruct (dims_conflict _ _); [discriminate|].
  cbn [lookup list_lookup nth].
  destruct (helper (dim_at input_shape 2) _ _ _ true) as [r|]; [|discriminate].
  destruct (helper (dim_at input_shape 3) _ _ _ true) as [k|]; [|discriminate].
  cbn [outputs].
  destruct (decide (0 < length slots)%nat) as [Hslots|]; [|discriminate].
  intros [= <-].
  exists (dim_at input_shape 0), (dim_at template_shape 0), r, k.
  cbn [verdict with_output outputs]. rewrite !list_lookup_insert_eq by exact Hslots.
  split; reflexivity.
Qed.

(** ** The further properties at concrete nodes *)

(** A matrix as input is refused for its rank. *)
Lemma rank_checks_come_first_witness :
  SimilarityShape SimnetsOutputSize matrix_input_context
  = Fails INVALID_ARGUMENT "Shape must be rank 4 but is rank 2" matrix_input_context.
Proof.
  apply (rank_checks_come_first SimnetsOutputSize matrix_input_context
           (MakeShape [4; 4]) (MakeShape [1; 1; 3; 3]));
    reflexivity.
Defined.

(** Three strides are refused by their number, with an empty padding list. *)
Lemma strides_arity_reported_witness :
  GetAttr_int32s "padding" three_strides_context = Value []
  /\ SimilarityShape SimnetsOutputSize three_strides_context
     = Fails INVALID_ARGUMENT
         "Similarity requires the stride attribute to contain 2 values, but got: 3"
         three_strides_context.
Proof.
  split; [vm_compute; reflexivity|].
  apply (strides_arity_reported SimnetsOutputSize three_strides_context
           (MakeShape [1; 1; 4; 4]) (MakeShape [1; 1; 3; 3]) [1; 1; 1] [3; 3] []);
    [reflexivity|reflexivity|reflexivity|reflexivity
    |vm_compute; reflexivity|vm_compute; reflexivity|vm_compute; reflexivity|cbn; lia].
Defined.

(** A blocks value of 2^32 is refused by the read of the attribute. *)
Lemma unreadable_blocks_refused_witness :
  SimilarityShape SimnetsOutputSize wide_blocks_context
  = Fails INVALID_ARGUMENT "Attr blocks has value 4294967296 out of range for an int32"
      wide_blocks_context.
Proof.
  apply (unreadable_blocks_refused SimnetsOutputSize wide_blocks_context
           (MakeShape [1; 1; 4; 4]) (MakeShape [1; 1; 3; 3]) [1; 1]);
    [reflexivity|reflexivity|reflexivity|reflexivity
    |vm_compute; reflexivity|vm_compute; reflexivity].
Defined.

(** The scenario with a third padding entry infers what the scenario does. *)
Lemma padding_beyond_two_ignored_witness :
  GetAttr_int32s "padding" (with_padding scenario_context [0; 0; 7]) = Value [0; 0; 7]
  /\ verdict (SimilarityShape SimnetsOutputSize (with_padding scenario_context [0; 0; 7]))
     = verdict (SimilarityShape SimnetsOutputSize
                  (with_padding (with_padding scenario_context [0; 0; 7]) [0; 0])).
Proof.
  split; [vm_compute; reflexivity|].
  apply (padding_beyond_two_ignored SimnetsOutputSize
           (with_padding scenario_context [0; 0; 7]) 0 0 [7]).
  vm_compute. reflexivity.
Defined.

(** The matrix the forward check refuses is given a shape by the
    input-gradient operation. *)
Lemma input_grad_accepts_what_forward_refuses_witness :
  exists (input_shape : ShapeHandle) (c'' : InferenceContext),
    inputs matrix_input_context !! 0%nat = Some input_shape
    /\ shape_fn SimilarityInputGrad matrix_input_context = Returns tt c''
    /\ outputs c'' !! 0%nat = Some (Some input_shape).
Proof.
  apply (input_grad_accepts_what_forward_refuses SimnetsOutputSize matrix_input_context
           matrix_input_context INVALID_ARGUMENT "Shape must be rank 4 but is rank 2");
    [vm_compute; reflexivity|cbn; lia].
Defined.

(** The defaults on the shapes of the scenario, with one output slot. *)
Lemma default_attributes_are_safe_witness :
  verdict
    (SimilarityShape SimnetsOutputSize
       (mkContext [MakeShape [1; 1; 4; 4]; MakeShape [1; 1; 3; 3]; MakeShape [1; 1; 3; 3]]
          (default_node_attrs (Similarity SimnetsOutputSize)) [None]))
  = Inferred (Some (MakeShape [1; 1; 1; 1]))
  /\ SimilarityShape SimnetsOutputSize
       (mkContext [MakeShape [1; 1; 4; 4]; MakeShape [1; 1; 3; 3]; MakeShape [1; 1; 3; 3]]
          (default_node_attrs (Similarity SimnetsOutputSize)) [None])
     <> Undefined.
Proof.
  split; [vm_compute; reflexivity|].
  apply (default_attributes_are_safe SimnetsOutputSize
           (MakeShape [1; 1; 4; 4]) (MakeShape [1; 1; 3; 3]) [MakeShape [1; 1; 3; 3]] [None]).
  discriminate.
Defined.

(** A 6x9 input under 3x2 templates gives 4x5; exchanged, 5x4. *)
Lemma rows_and_columns_alike_witness :
  exists n d r k : DimensionHandle,
    outputs (with_output tall_context 0 (MakeShape [2; 5; 4; 5])) !! 0%nat
    = Some (Some (MakeShape [n; d; r; k]))
    /\ verdict (SimilarityShape SimnetsOutputSize wide_context)
       = Inferred (Some (MakeShape [n; d; k; r])).
Proof.
  apply (rows_and_columns_alike SimnetsOutputSize
           (MakeShape [2; 3; 6; 9]) (MakeShape [5; 3; 3; 2]) [MakeShape [5; 3; 3; 2]]
           [3; 2] 1 2 0 1 [None] (with_output tall_context 0 (MakeShape [2; 5; 4; 5])));
    [reflexivity|vm_compute; reflexivity].
Defined.
